(** * kimi-monitor: reset detection, notification dispatch and scheduling

    A shallow embedding of [state_manager.py] and of the polling core of
    [monitor.py], with the properties the specification states about them;
    then of the clients ([kimi_client.py], [kimi_code_client.py]), the choice
    of notifier and client, the simulation and the manual update tool
    ([update_usage.py]), with further properties read off the code.

    Numbers.  The program's [float] values (percent used, hours until
    reset) are embedded as exact rationals [Q]: comparison and subtraction
    are the rational ones, so [NaN], the infinities and the rounding of
    [last_percent - 50] are outside the embedding.  A [datetime] is a
    count of microseconds (its resolution) in [Z] from 0001-01-01T00:00:00,
    a [timedelta] likewise a count of microseconds; building a [timedelta]
    and adding one to a [datetime] raise [OverflowError] outside their
    ranges, as in Python.

    Effects.  Every method of [StateManager] reads and writes [self.state];
    here each one takes the state and returns the new one.  A reading of
    [datetime.now()] is an argument of the function that takes it. *)

From Stdlib Require Import ZArith QArith Qround Qminmax Qabs Lqa Lia Bool List String.
From stdpp Require Import base gmap strings.
Import ListNotations.

Local Open Scope Z_scope.
Local Open Scope Q_scope.
Local Open Scope bool_scope.

(** ** Comparisons of Python numbers, as booleans *)

Module PyNum.

(** [x < y] *)
Definition ltb (x y : Q) : bool :=
  (Qnum x * QDen y <? Qnum y * QDen x)%Z.

(** [x > y], which Python evaluates as [y < x] *)
Definition gtb (x y : Q) : bool := ltb y x.

End PyNum.

Notation "x <? y" := (PyNum.ltb x y) : Q_scope.
Notation "x >? y" := (PyNum.gtb x y) : Q_scope.

(** ** [MonitorState] (state_manager.py) *)

Record MonitorState := mkMonitorState {
  weekly_was_full : bool;
  weekly_last_percent : Q;
  weekly_last_reset_hours : Q;
  rate_was_full : bool;
  rate_last_percent : Q;
  rate_last_last_reset_hours : Q;
  last_check_time : option string;
  weekly_reset_notified : bool;
  rate_reset_notified : bool
}.

(** [MonitorState()]: every field at its declared default. *)
Definition MonitorState_default : MonitorState :=
  {| weekly_was_full := false;
     weekly_last_percent := 0;
     weekly_last_reset_hours := 0;
     rate_was_full := false;
     rate_last_percent := 0;
     rate_last_last_reset_hours := 0;
     last_check_time := None;
     weekly_reset_notified := false;
     rate_reset_notified := false |}.

(** Attribute assignments [self.state.<field> = v]. *)
Definition set_weekly_was_full (v : bool) (s : MonitorState) : MonitorState :=
  mkMonitorState v (weekly_last_percent s) (weekly_last_reset_hours s)
    (rate_was_full s) (rate_last_percent s) (rate_last_last_reset_hours s)
    (last_check_time s) (weekly_reset_notified s) (rate_reset_notified s).

Definition set_weekly_last_percent (v : Q) (s : MonitorState) : MonitorState :=
  mkMonitorState (weekly_was_full s) v (weekly_last_reset_hours s)
    (rate_was_full s) (rate_last_percent s) (rate_last_last_reset_hours s)
    (last_check_time s) (weekly_reset_notified s) (rate_reset_notified s).

Definition set_weekly_last_reset_hours (v : Q) (s : MonitorState) : MonitorState :=
  mkMonitorState (weekly_was_full s) (weekly_last_percent s) v
    (rate_was_full s) (rate_last_percent s) (rate_last_last_reset_hours s)
    (last_check_time s) (weekly_reset_notified s) (rate_reset_notified s).

Definition set_rate_was_full (v : bool) (s : MonitorState) : MonitorState :=
  mkMonitorState (weekly_was_full s) (weekly_last_percent s) (weekly_last_reset_hours s)
    v (rate_last_percent s) (rate_last_last_reset_hours s)
    (last_check_time s) (weekly_reset_notified s) (rate_reset_notified s).

Definition set_rate_last_percent (v : Q) (s : MonitorState) : MonitorState :=
  mkMonitorState (weekly_was_full s) (weekly_last_percent s) (weekly_last_reset_hours s)
    (rate_was_full s) v (rate_last_last_reset_hours s)
    (last_check_time s) (weekly_reset_notified s) (rate_reset_notified s).

Definition set_rate_last_last_reset_hours (v : Q) (s : MonitorState) : MonitorState :=
  mkMonitorState (weekly_was_full s) (weekly_last_percent s) (weekly_last_reset_hours s)
    (rate_was_full s) (rate_last_percent s) v
    (last_check_time s) (weekly_reset_notified s) (rate_reset_notified s).

Definition set_last_check_time (v : option string) (s : MonitorState) : MonitorState :=
  mkMonitorState (weekly_was_full s) (weekly_last_percent s) (weekly_last_reset_hours s)
    (rate_was_full s) (rate_last_percent s) (rate_last_last_reset_hours s)
    v (weekly_reset_notified s) (rate_reset_notified s).

Definition set_weekly_reset_notified (v : bool) (s : MonitorState) : MonitorState :=
  mkMonitorState (weekly_was_full s) (weekly_last_percent s) (weekly_last_reset_hours s)
    (rate_was_full s) (rate_last_percent s) (rate_last_last_reset_hours s)
    (last_check_time s) v (rate_reset_notified s).

Definition set_rate_reset_notified (v : bool) (s : MonitorState) : MonitorState :=
  mkMonitorState (weekly_was_full s) (weekly_last_percent s) (weekly_last_reset_hours s)
    (rate_was_full s) (rate_last_percent s) (rate_last_last_reset_hours s)
    (last_check_time s) (weekly_reset_notified s) v.

(** ** The detector: [StateManager.update_and_check_weekly] and
    [StateManager.update_and_check_rate]

    [now_iso] is the string [datetime.now().isoformat()] gives at the call. *)

(** The [if]/[elif] chain that sets [is_reset] (lines 72-85). *)
Definition weekly_is_reset (s : MonitorState) (current_percent reset_hours : Q) : bool :=
  let was_full := weekly_was_full s in
  let last_percent := weekly_last_percent s in
  let last_reset_hours := weekly_last_reset_hours s in
  if was_full && (current_percent <? 20) then true
  else if (last_reset_hours <? 1) && (reset_hours >? 160) then true
  else if (last_percent >? 90) && (current_percent <? last_percent - 50) then true
  else false.

Definition update_and_check_weekly (s : MonitorState)
    (current_percent reset_hours : Q) (now_iso : string) : MonitorState * bool :=
  let is_reset := weekly_is_reset s current_percent reset_hours in
  let s := set_weekly_last_percent current_percent s in
  let s := set_weekly_last_reset_hours reset_hours s in
  let s := set_weekly_was_full (current_percent >? 80) s in
  let s := set_last_check_time (Some now_iso) s in
  let s := if is_reset then set_weekly_reset_notified false s else s in
  (s, is_reset && negb (weekly_reset_notified s)).

(** The same chain for the 5h limit (lines 109-120). *)
Definition rate_is_reset (s : MonitorState) (current_percent reset_hours : Q) : bool :=
  let was_full := rate_was_full s in
  let last_percent := rate_last_percent s in
  let last_reset_hours := rate_last_last_reset_hours s in
  if was_full && (current_percent <? 20) then true
  else if (last_reset_hours <? (1 # 2)) && (reset_hours >? 2) then true
  else if (last_percent >? 80) && (current_percent <? last_percent - 40) then true
  else false.

Definition update_and_check_rate (s : MonitorState)
    (current_percent reset_hours : Q) (now_iso : string) : MonitorState * bool :=
  let is_reset := rate_is_reset s current_percent reset_hours in
  let s := set_rate_last_percent current_percent s in
  let s := set_rate_last_last_reset_hours reset_hours s in
  let s := set_rate_was_full (current_percent >? 70) s in
  let s := set_last_check_time (Some now_iso) s in
  let s := if is_reset then set_rate_reset_notified false s else s in
  (s, is_reset && negb (rate_reset_notified s)).

(** [StateManager.mark_notified]; the [save_state] it ends with writes the
    file and leaves [self.state] as it is. *)
Definition mark_notified (weekly rate : bool) (s : MonitorState) : MonitorState :=
  let s := if weekly then set_weekly_reset_notified true s else s in
  let s := if rate then set_rate_reset_notified true s else s in
  s.

(** ** Exceptions *)

(** The exception classes in play.  [KeyboardInterrupt] is the one here
    that is not a subclass of [Exception]. *)
Inductive exn :=
| OSError
| UnicodeDecodeError
| JSONDecodeError
| TypeError
| OverflowError
| KeyboardInterrupt.

Definition is_Exception (e : exn) : bool :=
  match e with
  | KeyboardInterrupt => false
  | _ => true
  end.

(** A computation that returns or raises. *)
Inductive outcome (A : Type) :=
| Return (a : A)
| Raise (e : exn).
Arguments Return {A} a.
Arguments Raise {A} e.

Definition bind {A B : Type} (m : outcome A) (k : A -> outcome B) : outcome B :=
  match m with
  | Return a => k a
  | Raise e => Raise e
  end.

(** [try: body  except Exception as e: handler]: an exception outside
    [Exception] goes through. *)
Definition try_except_Exception {A : Type} (body : outcome A)
    (handler : exn -> outcome A) : outcome A :=
  match body with
  | Return a => Return a
  | Raise e => if is_Exception e then handler e else Raise e
  end.

(** ** Time: [datetime] and [timedelta] at microsecond resolution *)

Definition datetime := Z.
Definition timedelta := Z.

(** Rounding to the nearest integer, ties to the even one: what the
    [timedelta] constructor does with fractional microseconds. *)
Definition round_half_even (q : Q) : Z :=
  let f := Qfloor q in
  let r := q - inject_Z f in
  if r <? (1 # 2) then f
  else if (1 # 2) <? r then (f + 1)%Z
  else if Z.even f then f else (f + 1)%Z.

(** The range of [datetime]: 0001-01-01T00:00:00 to
    9999-12-31T23:59:59.999999, which is 3652059 days less one microsecond
    after the first. *)
Definition datetime_min : datetime := 0%Z.
Definition datetime_max : datetime := (3652059 * 86400000000 - 1)%Z.

Definition datetime_in_range (t : Z) : bool :=
  (datetime_min <=? t)%Z && (t <=? datetime_max)%Z.

(** [t + d] for a [datetime] and a [timedelta]: [OverflowError] when the
    sum leaves the calendar. *)
Definition datetime_add (t : datetime) (d : timedelta) : outcome datetime :=
  if datetime_in_range (t + d) then Return (t + d)%Z else Raise OverflowError.

(** The range of [timedelta]: its days lie between -999999999 and
    999999999. *)
Definition timedelta_in_range (us : Z) : bool :=
  (- (999999999 * 86400000000) <=? us)%Z && (us <? 1000000000 * 86400000000)%Z.

(** The microseconds in [h] hours, rounded. *)
Definition hours_microseconds (h : Q) : Z :=
  round_half_even (h * 3600000000).

(** [timedelta(hours=h)] for a float [h]: [OverflowError] when the days
    are out of range. *)
Definition timedelta_hours (h : Q) : outcome timedelta :=
  if timedelta_in_range (hours_microseconds h)
  then Return (hours_microseconds h)
  else Raise OverflowError.

(** [timedelta(minutes=m)] and [timedelta(seconds=s)] for integers *)
Definition timedelta_minutes (m : Z) : timedelta := (m * 60000000)%Z.
Definition timedelta_seconds (s : Z) : timedelta := (s * 1000000)%Z.

(** [td.total_seconds()] *)
Definition total_seconds (td : timedelta) : Q := inject_Z td / 1000000.

(** ** [UsageInfo] (kimi_client.py); [raw_data] is never read by the
    monitor and is left out. *)

Record UsageInfo := mkUsageInfo {
  weekly_usage_percent : Q;
  weekly_reset_hours : Q;
  rate_limit_percent : Q;
  rate_limit_reset_hours : Q
}.

(** ** [calculate_next_check_time] (monitor.py); [now] is its reading of
    the clock.  Each of its four sums can leave the calendar and raise. *)
Definition calculate_next_check_time (usage : UsageInfo) (now : datetime)
    : outcome datetime :=
  bind (timedelta_hours (weekly_reset_hours usage)) (fun weekly_delta =>
  bind (datetime_add now weekly_delta) (fun weekly_reset_time =>
  bind (timedelta_hours (rate_limit_reset_hours usage)) (fun rate_delta =>
  bind (datetime_add now rate_delta) (fun rate_reset_time =>
  bind (datetime_add weekly_reset_time (timedelta_minutes 5)) (fun weekly_check =>
  bind (datetime_add rate_reset_time (timedelta_minutes 5)) (fun rate_check =>
  Return (if (weekly_check <? rate_check)%Z then weekly_check else rate_check))))))).

(** ** The notifier: the two requests [check_and_notify] makes, and the
    answer ([True] for delivered) each one gets. *)

Inductive Notification :=
| QuotaReset (to_email quota_type : string)
| BothReset (to_email : string).

Definition Notifier := Notification -> bool.

(** ** [check_and_notify] (monitor.py)

    [usage] is what [client.get_usage()] gave: [None] when it returned
    nothing (or raised, which the enclosing [try] turns into the same
    return).  [iso_weekly] and [iso_rate] are the clock readings of the two
    detector calls, [now] the one of [calculate_next_check_time].  The
    result carries the state afterwards, the notifications requested in
    order, and the returned pair.  [state.save_state()] writes the file
    from the state and changes neither; the notifier answers with a
    boolean (its own [try] turns a failed delivery into [False]).  When
    [calculate_next_check_time] raises, which it does with [OverflowError]
    only, the handler of the enclosing [try] returns [(False, None)]; the
    state is updated and the notifications are sent by then. *)

Record PollResult := mkPollResult {
  poll_state : MonitorState;
  poll_requested : list Notification;
  poll_return : bool * option datetime
}.

Definition check_and_notify (usage : option UsageInfo) (notifier : Notifier)
    (NOTIFY_EMAIL : string) (s : MonitorState)
    (iso_weekly iso_rate : string) (now : datetime) : PollResult :=
  match usage with
  | None => mkPollResult s [] (false, None)
  | Some usage =>
      let weekly_used := weekly_usage_percent usage in
      let hourly_used := rate_limit_percent usage in
      let '(s, weekly_reset) :=
        update_and_check_weekly s weekly_used (weekly_reset_hours usage) iso_weekly in
      let '(s, rate_reset) :=
        update_and_check_rate s hourly_used (rate_limit_reset_hours usage) iso_rate in
      let '(s, requested) :=
        if weekly_reset && rate_reset then
          let n := BothReset NOTIFY_EMAIL in
          if notifier n then (mark_notified true true s, [n]) else (s, [n])
        else
          let '(s, req_weekly) :=
            if weekly_reset then
              let n := QuotaReset NOTIFY_EMAIL "Weekly limit" in
              if notifier n then (mark_notified true false s, [n]) else (s, [n])
            else (s, []) in
          let '(s, req_rate) :=
            if rate_reset then
              let n := QuotaReset NOTIFY_EMAIL "5h limit" in
              if notifier n then (mark_notified false true s, [n]) else (s, [n])
            else (s, []) in
          (s, req_weekly ++ req_rate) in
      mkPollResult s requested
        match calculate_next_check_time usage now with
        | Return next_check => (true, Some next_check)
        | Raise _ => (false, None)
        end
  end.

(** ** The scheduling step of [run_monitor] (lines 221-236): from the
    loop's own [now] and the pair [check_and_notify] returned, the new
    [next_check_time]. *)
Definition schedule_after_poll (CHECK_INTERVAL_MINUTES : Z) (now : datetime)
    (result : bool * option datetime) : datetime :=
  match result with
  | (true, Some next_check) =>
      let wait_seconds := total_seconds (next_check - now)%Z in
      let max_wait := (CHECK_INTERVAL_MINUTES * 60)%Z in
      if wait_seconds >? inject_Z max_wait
      then (now + timedelta_seconds max_wait)%Z
      else next_check
  | _ => (now + timedelta_minutes CHECK_INTERVAL_MINUTES)%Z
  end.

(** The test [next_check_time is None or now >= next_check_time]. *)
Definition poll_due (next_check_time : option datetime) (now : datetime) : bool :=
  match next_check_time with
  | None => true
  | Some t => (t <=? now)%Z
  end.

(** A run of polls, one per snapshot, each with its clock readings; the
    notifier and the address stay the same.  It returns the state after the
    last poll and what each poll requested. *)
Record PollInput := mkPollInput {
  in_usage : option UsageInfo;
  in_iso_weekly : string;
  in_iso_rate : string;
  in_now : datetime
}.

Fixpoint run_polls (notifier : Notifier) (NOTIFY_EMAIL : string)
    (s : MonitorState) (inputs : list PollInput) : MonitorState * list (list Notification) :=
  match inputs with
  | [] => (s, [])
  | i :: rest =>
      let r := check_and_notify (in_usage i) notifier NOTIFY_EMAIL s
                 (in_iso_weekly i) (in_iso_rate i) (in_now i) in
      let '(s', reqs) := run_polls notifier NOTIFY_EMAIL (poll_state r) rest in
      (s', poll_requested r :: reqs)
  end.

(** ** The state file: JSON values, exceptions, [_load_state] *)

(** What [json.load] can return. *)
#[warnings="-register-all"]
Inductive json :=
| JNull
| JBool (b : bool)
| JInt (n : Z)
| JFloat (x : Q)
| JStr (s : string)
| JArr (l : list json)
| JObj (m : gmap string json).

(** What is at the path [state_file] when the monitor starts. *)
Inductive state_file :=
| NoFile                (* [os.path.exists] is false *)
| CannotOpen            (* a directory, or no permission: [open] raises *)
| NotText               (* bytes that do not decode: reading raises *)
| InvalidJSON           (* text [json.load] rejects *)
| Json (data : json).   (* text [json.load] parses to [data] *)

Definition os_path_exists (f : state_file) : bool :=
  match f with
  | NoFile => false
  | _ => true
  end.

(** [with open(self.state_file, 'r') as f: data = json.load(f)] *)
Definition open_and_json_load (f : state_file) : outcome json :=
  match f with
  | NoFile => Raise OSError
  | CannotOpen => Raise OSError
  | NotText => Raise UnicodeDecodeError
  | InvalidJSON => Raise JSONDecodeError
  | Json data => Return data
  end.

(** [asdict(state)]: the instance as the dictionary of its fields. *)
Definition asdict (s : MonitorState) : gmap string json :=
  <["weekly_was_full" := JBool (weekly_was_full s)]>
  (<["weekly_last_percent" := JFloat (weekly_last_percent s)]>
  (<["weekly_last_reset_hours" := JFloat (weekly_last_reset_hours s)]>
  (<["rate_was_full" := JBool (rate_was_full s)]>
  (<["rate_last_percent" := JFloat (rate_last_percent s)]>
  (<["rate_last_last_reset_hours" := JFloat (rate_last_last_reset_hours s)]>
  (<["last_check_time" := match last_check_time s with
                          | Some t => JStr t
                          | None => JNull
                          end]>
  (<["weekly_reset_notified" := JBool (weekly_reset_notified s)]>
  (<["rate_reset_notified" := JBool (rate_reset_notified s)]> ∅)))))))).

(** The nine field names. *)
Definition field_names : gset string :=
  dom (asdict MonitorState_default).

(** The constructor call with [data] unpacked as keyword arguments
    (line 47).  The call needs a mapping, and the generated
    [__init__] accepts only the nine field names as keywords; it checks no
    value.  The instance is given by its attribute dictionary: the
    keywords passed, the defaults for the others. *)
Definition MonitorState_init (data : json) : outcome (gmap string json) :=
  match data with
  | JObj kwargs =>
      if bool_decide (dom kwargs ⊆ field_names)
      then Return (kwargs ∪ asdict MonitorState_default)
      else Raise TypeError
  | _ => Raise TypeError
  end.

(** [StateManager._load_state] *)
Definition _load_state (f : state_file) : outcome (gmap string json) :=
  if os_path_exists f then
    try_except_Exception
      (bind (open_and_json_load f) (fun data =>
       MonitorState_init data))
      (fun e => Return (asdict MonitorState_default))
  else Return (asdict MonitorState_default).

(** The file after a [save_state] that succeeded. *)
Definition saved_file (s : MonitorState) : state_file :=
  Json (JObj (asdict s)).

(** Reading an instance whose fields have the declared types. *)
Definition as_bool (j : json) : option bool :=
  match j with
  | JBool b => Some b
  | _ => None
  end.

Definition as_float (j : json) : option Q :=
  match j with
  | JFloat x => Some x
  | JInt n => Some (inject_Z n)
  | _ => None
  end.

Definition as_optional_str (j : json) : option (option string) :=
  match j with
  | JNull => Some None
  | JStr s => Some (Some s)
  | _ => None
  end.

Definition MonitorState_of_dict (d : gmap string json) : option MonitorState :=
  wf ← d !! "weekly_was_full" ≫= as_bool;
  wp ← d !! "weekly_last_percent" ≫= as_float;
  wh ← d !! "weekly_last_reset_hours" ≫= as_float;
  rf ← d !! "rate_was_full" ≫= as_bool;
  rp ← d !! "rate_last_percent" ≫= as_float;
  rh ← d !! "rate_last_last_reset_hours" ≫= as_float;
  lc ← d !! "last_check_time" ≫= as_optional_str;
  wn ← d !! "weekly_reset_notified" ≫= as_bool;
  rn ← d !! "rate_reset_notified" ≫= as_bool;
  Some (mkMonitorState wf wp wh rf rp rh lc wn rn).

(** ** The two quota kinds, side by side

    The source writes the weekly and the 5h detector out twice.  The
    definitions below name one by its kind, so that a property of both is
    stated once. *)

Inductive QuotaKind := Weekly | Rate.

Definition was_full (k : QuotaKind) (s : MonitorState) : bool :=
  match k with
  | Weekly => weekly_was_full s
  | Rate => rate_was_full s
  end.

Definition last_percent (k : QuotaKind) (s : MonitorState) : Q :=
  match k with
  | Weekly => weekly_last_percent s
  | Rate => rate_last_percent s
  end.

Definition last_reset_hours (k : QuotaKind) (s : MonitorState) : Q :=
  match k with
  | Weekly => weekly_last_reset_hours s
  | Rate => rate_last_last_reset_hours s
  end.

Definition reset_notified (k : QuotaKind) (s : MonitorState) : bool :=
  match k with
  | Weekly => weekly_reset_notified s
  | Rate => rate_reset_notified s
  end.

Definition is_reset (k : QuotaKind) : MonitorState -> Q -> Q -> bool :=
  match k with
  | Weekly => weekly_is_reset
  | Rate => rate_is_reset
  end.

Definition update_and_check (k : QuotaKind) :
    MonitorState -> Q -> Q -> string -> MonitorState * bool :=
  match k with
  | Weekly => update_and_check_weekly
  | Rate => update_and_check_rate
  end.

(** The assignment [resetNotified = v] of either kind. *)
Definition set_reset_notified (k : QuotaKind) (v : bool) (s : MonitorState) : MonitorState :=
  match k with
  | Weekly => set_weekly_reset_notified v s
  | Rate => set_rate_reset_notified v s
  end.

(** The per-kind thresholds, as the specification tabulates them. *)
Module Thresholds.

Definition fullThreshold (k : QuotaKind) : Q :=
  match k with Weekly => 80 | Rate => 70 end.

Definition lowThreshold (k : QuotaKind) : Q := 20.

Definition imminentResetHours (k : QuotaKind) : Q :=
  match k with Weekly => 1 | Rate => 1 # 2 end.

Definition postResetHoursFloor (k : QuotaKind) : Q :=
  match k with Weekly => 160 | Rate => 2 end.

Definition dropMagnitude (k : QuotaKind) : Q :=
  match k with Weekly => 50 | Rate => 40 end.

Definition dropFloor (k : QuotaKind) : Q :=
  match k with Weekly => 90 | Rate => 80 end.

End Thresholds.

(** The detection rule in the specification's words: the disjunction of
    level-crossing, countdown-wrap and magnitude-drop, each on the state
    before the update, with the thresholds of the kind. *)
Module Spec.

Definition level_crossing (k : QuotaKind) (s : MonitorState) (percent : Q) : bool :=
  was_full k s && (percent <? Thresholds.lowThreshold k).

Definition countdown_wrap (k : QuotaKind) (s : MonitorState) (resetHours : Q) : bool :=
  (last_reset_hours k s <? Thresholds.imminentResetHours k)
  && (resetHours >? Thresholds.postResetHoursFloor k).

Definition magnitude_drop (k : QuotaKind) (s : MonitorState) (percent : Q) : bool :=
  (last_percent k s >? Thresholds.dropFloor k)
  && (percent <? last_percent k s - Thresholds.dropMagnitude k).

Definition isReset (k : QuotaKind) (s : MonitorState) (percent resetHours : Q) : bool :=
  level_crossing k s percent || countdown_wrap k s resetHours || magnitude_drop k s percent.

End Spec.

(** The stored observation is consistent when [was_full] is what the
    stored percent gives; every detector call leaves it so. *)
Definition observation_consistent (k : QuotaKind) (s : MonitorState) : Prop :=
  was_full k s = (last_percent k s >? Thresholds.fullThreshold k).

(** Repeated detector calls of one kind with the same sample, one per clock
    reading; the returned booleans in order, and the state at the end. *)
Fixpoint repeat_check (k : QuotaKind) (s : MonitorState) (percent reset_hours : Q)
    (clock : list string) : MonitorState * list bool :=
  match clock with
  | [] => (s, [])
  | t :: clock' =>
      let '(s1, b) := update_and_check k s percent reset_hours t in
      let '(s2, bs) := repeat_check k s1 percent reset_hours clock' in
      (s2, b :: bs)
  end.

(** The state once both detector calls of a poll are done, before any
    notification is requested. *)
Definition after_detection (usage : UsageInfo) (s : MonitorState)
    (iso_weekly iso_rate : string) : MonitorState :=
  let s := fst (update_and_check_weekly s (weekly_usage_percent usage)
                  (weekly_reset_hours usage) iso_weekly) in
  fst (update_and_check_rate s (rate_limit_percent usage)
         (rate_limit_reset_hours usage) iso_rate).

(** Whether a notification tells of the reset of kind [k]. *)
Definition notifies (k : QuotaKind) (n : Notification) : bool :=
  match n with
  | BothReset _ => true
  | QuotaReset _ quota_type =>
      match k with
      | Weekly => String.eqb quota_type "Weekly limit"
      | Rate => String.eqb quota_type "5h limit"
      end
  end.

(** The four snapshots of the end-to-end scenario, with the clock readings
    of poll [i] taken from [clock i]. *)
Definition scenario_usage : list UsageInfo :=
  [ mkUsageInfo 84 166 66 3;
    mkUsageInfo 84 166 66 3;
    mkUsageInfo 5 (1 # 20) 5 (1 # 20);
    mkUsageInfo 100 168 100 5 ].

Definition scenario (clock : nat -> string * string * datetime) : list PollInput :=
  map (fun iu : nat * UsageInfo =>
         let c := clock (fst iu) in
         mkPollInput (Some (snd iu)) (fst (fst c)) (snd (fst c)) (snd c))
      (combine (seq 0 4) scenario_usage).

Definition always_succeeds : Notifier := fun _ => true.

(** ** Clients (kimi_client.py, kimi_code_client.py) *)

(** [x <= y] *)
Definition py_leb (x y : Q) : bool := Qle_bool x y.

(** [max(0, x)]: the first argument stays unless the second is greater. *)
Definition py_max0 (x : Q) : Q := if x >? 0 then x else 0.

(** [KimiClient.get_usage]: the API has no usage endpoint; it warns and
    returns [None]. *)
Module KimiClient.

Definition get_usage : option UsageInfo := None.

End KimiClient.

(** The [UsageInfo] that [StateFileClient.get_usage] builds: its fields are
    whatever JSON values the file holds under the four keys. *)
Record RawUsageInfo := mkRawUsageInfo {
  raw_weekly_usage_percent : json;
  raw_weekly_reset_hours : json;
  raw_rate_limit_percent : json;
  raw_rate_limit_reset_hours : json;
  raw_data : gmap string json
}.

(** [d.get(key, dflt)] *)
Definition dict_get (d : gmap string json) (key : string) (dflt : json) : json :=
  match d !! key with
  | Some v => v
  | None => dflt
  end.

Module StateFileClient.

(** [StateFileClient.get_usage].  On a JSON value that is no object,
    [data.get] raises [AttributeError], which the handler catches like the
    exceptions of reading: the result is [None]. *)
Definition get_usage (f : state_file) : outcome (option RawUsageInfo) :=
  try_except_Exception
    (if negb (os_path_exists f) then Return None
     else
       bind (open_and_json_load f) (fun data =>
       match data with
       | JObj d =>
           Return (Some (mkRawUsageInfo
                     (dict_get d "weekly_last_percent" (JInt 0))
                     (dict_get d "weekly_last_reset_hours" (JInt 0))
                     (dict_get d "rate_last_percent" (JInt 0))
                     (dict_get d "rate_last_last_reset_hours" (JInt 0))
                     d))
       | _ => Return None
       end))
    (fun e => Return None).

End StateFileClient.

(** A raw snapshot whose four values are numbers of the declared type. *)
Definition UsageInfo_of_raw (u : RawUsageInfo) : option UsageInfo :=
  wp ← as_float (raw_weekly_usage_percent u);
  wh ← as_float (raw_weekly_reset_hours u);
  rp ← as_float (raw_rate_limit_percent u);
  rh ← as_float (raw_rate_limit_reset_hours u);
  Some (mkUsageInfo wp wh rp rh).

(** [MockKimiCodeClient]: percent left and hours to the reset of both
    limits, as attributes the simulation assigns. *)
Module MockKimiCodeClient.

Record t := mk {
  weekly_left : Q;
  weekly_reset_hours : Q;
  hourly_left : Q;
  hourly_reset_hours : Q
}.

(** The class attributes an instance starts with. *)
Definition initial : t :=
  mk 84 (6 * 24 + 22 + 54 / 60) 19 (3 + 54 / 60).

Definition get_usage (c : t) : UsageInfo :=
  let weekly_used := 100 - weekly_left c in
  let hourly_used := 100 - hourly_left c in
  mkUsageInfo weekly_used (weekly_reset_hours c) hourly_used (hourly_reset_hours c).

Definition simulate_countdown (minutes : Q) (c : t) : t :=
  let hours := minutes / 60 in
  let c := mk (weekly_left c) (py_max0 (weekly_reset_hours c - hours))
              (hourly_left c) (hourly_reset_hours c) in
  let c := mk (weekly_left c) (weekly_reset_hours c)
              (hourly_left c) (py_max0 (hourly_reset_hours c - hours)) in
  let c := if py_leb (weekly_reset_hours c) 0
           then mk 100 (7 * 24) (hourly_left c) (hourly_reset_hours c)
           else c in
  let c := if py_leb (hourly_reset_hours c) 0
           then mk (weekly_left c) (weekly_reset_hours c) 100 5
           else c in
  c.

(** The hours to the reset of one kind. *)
Definition reset_hours (k : QuotaKind) (c : t) : Q :=
  match k with
  | Weekly => weekly_reset_hours c
  | Rate => hourly_reset_hours c
  end.

End MockKimiCodeClient.

(** ** Configuration and the choice of notifier and client (config.py,
    monitor.py) *)

Record Config := mkConfig {
  MOONSHOT_API_KEY : string;
  SMTP_SERVER : string;
  SMTP_PORT : Z;
  SMTP_USER : string;
  SMTP_PASSWORD : string;
  NOTIFY_EMAIL : string;
  CHECK_INTERVAL_MINUTES : Z;
  STATE_FILE : string;
  LOG_FILE : string
}.

(** [not s] for a string: true of the empty one. *)
Definition py_not_str (s : string) : bool :=
  match s with
  | EmptyString => true
  | _ => false
  end.

(** [ConsoleNotifier]: it prints and returns [True]. *)
Definition ConsoleNotifier : Notifier := fun _ => true.

(** [create_notifier]; [smtp] is what sending through the configured
    server answers ([EmailNotifier.send_notification]: [True] when the mail
    went out, [False] on any exception). *)
Definition create_notifier (config : Config) (smtp : Notifier) : Notifier :=
  if py_not_str (SMTP_USER config) || py_not_str (SMTP_PASSWORD config)
  then ConsoleNotifier
  else smtp.

(** The client [create_client] returns. *)
Inductive Client :=
| UseStateFileClient (state_file_path : string)
| UseMockKimiCodeClient (c : MockKimiCodeClient.t)
| UseKimiClient (api_key : string).

(** [create_client]; [f] is what is at [config.STATE_FILE], [verify_key]
    the answer of [KimiClient.verify_key]. *)
Definition create_client (config : Config) (f : state_file) (verify_key : bool) : Client :=
  if os_path_exists f then UseStateFileClient (STATE_FILE config)
  else if py_not_str (MOONSHOT_API_KEY config)
  then UseMockKimiCodeClient MockKimiCodeClient.initial
  else if verify_key then UseKimiClient (MOONSHOT_API_KEY config)
  else UseMockKimiCodeClient MockKimiCodeClient.initial.

(** ** One pass of the main loop of [run_monitor] (lines 213-245): when a
    poll is due it is made and the next time scheduled, otherwise the
    scheduled time stays.  [poll] is [check_and_notify] on the state. *)
Definition run_monitor_pass (CHECK_INTERVAL_MINUTES : Z)
    (next_check_time : option datetime) (now : datetime)
    (poll : MonitorState -> PollResult) (s : MonitorState)
    : MonitorState * list Notification * option datetime :=
  if poll_due next_check_time now then
    let r := poll s in
    (poll_state r, poll_requested r,
     Some (schedule_after_poll CHECK_INTERVAL_MINUTES now (poll_return r)))
  else (s, [], next_check_time).

(** ** [simulate_test] (monitor.py): eight checks on a mock client that
    starts almost used up and three minutes before both resets; two minutes
    pass after each check, and after the fifth both limits are set to
    unused.  [clock i] gives the clock readings of check [i]. *)
Fixpoint simulate_checks (notifier : Notifier) (NOTIFY_EMAIL : string)
    (clock : nat -> string * string * datetime)
    (indices : list nat) (client : MockKimiCodeClient.t) (s : MonitorState)
    : MonitorState * list (list Notification) :=
  match indices with
  | [] => (s, [])
  | i :: rest =>
      let c := clock i in
      let r := check_and_notify (Some (MockKimiCodeClient.get_usage client))
                 notifier NOTIFY_EMAIL s (fst (fst c)) (snd (fst c)) (snd c) in
      let client := MockKimiCodeClient.simulate_countdown 2 client in
      let client :=
        if Nat.eqb i 4
        then MockKimiCodeClient.mk 100 (MockKimiCodeClient.weekly_reset_hours client)
               100 (MockKimiCodeClient.hourly_reset_hours client)
        else client in
      let '(s', reqs) :=
        simulate_checks notifier NOTIFY_EMAIL clock rest client (poll_state r) in
      (s', poll_requested r :: reqs)
  end.

Definition simulate_test (notifier : Notifier) (NOTIFY_EMAIL : string)
    (clock : nat -> string * string * datetime) (s : MonitorState)
    : MonitorState * list (list Notification) :=
  let client := MockKimiCodeClient.initial in
  let client := MockKimiCodeClient.mk 5 (1 # 20) 5 (1 # 20) in
  simulate_checks notifier NOTIFY_EMAIL clock (seq 0 8) client s.

(** ** The manual update tool (update_usage.py): it rewrites the same state
    file from a usage report typed in by hand. *)
Module UpdateUsage.

(** The dictionary [load_state] returns when there is no file. *)
Definition default_state : gmap string json :=
  <["weekly_was_full" := JBool false]>
  (<["weekly_last_percent" := JFloat 0]>
  (<["weekly_last_reset_hours" := JFloat 0]>
  (<["rate_was_full" := JBool false]>
  (<["rate_last_percent" := JFloat 0]>
  (<["rate_last_last_reset_hours" := JFloat 0]>
  (<["weekly_reset_notified" := JBool false]>
  (<["rate_reset_notified" := JBool false]> ∅))))))).

(** [load_state]: nothing is caught here. *)
Definition load_state (f : state_file) : outcome json :=
  if os_path_exists f then open_and_json_load f
  else Return (JObj default_state).

(** A JSON value as an operand of [<] or [>] against a number: a number
    (a boolean counts as 0 or 1) compares, anything else raises [TypeError]. *)
Definition as_number (j : json) : outcome Q :=
  match j with
  | JBool b => Return (if b then 1 else 0)
  | JInt n => Return (inject_Z n)
  | JFloat x => Return x
  | _ => Raise TypeError
  end.

Definition json_gt (j : json) (x : Q) : outcome bool :=
  bind (as_number j) (fun v => Return (v >? x)).

Definition json_lt (j : json) (x : Q) : outcome bool :=
  bind (as_number j) (fun v => Return (v <? x)).

(** [update_usage], from the dictionary [load_state] gave; the result is
    the dictionary handed to [save_state] and the returned boolean.  The
    second operand of each [and], and each [elif], is evaluated only when it
    is reached. *)
Definition update_usage (state : gmap string json)
    (weekly_left weekly_days weekly_hours weekly_mins
     hourly_left hourly_hours hourly_mins : Q)
    (now_iso : string) : outcome (gmap string json * bool) :=
  let weekly_used := 100 - weekly_left in
  let hourly_used := 100 - hourly_left in
  let weekly_reset_hours := weekly_days * 24 + weekly_hours + weekly_mins / 60 in
  let hourly_reset_hours := hourly_hours + hourly_mins / 60 in
  let old_weekly_pct := dict_get state "weekly_last_percent" (JInt 0) in
  let old_weekly_reset := dict_get state "weekly_last_reset_hours" (JInt 168) in
  let old_rate_pct := dict_get state "rate_last_percent" (JInt 0) in
  let old_rate_reset := dict_get state "rate_last_last_reset_hours" (JInt 3) in
  bind
    (bind (json_gt old_weekly_pct 80) (fun high =>
     if high && (weekly_used <? 20) then Return true
     else
       bind (json_lt old_weekly_reset 1) (fun imminent =>
       if imminent && (weekly_reset_hours >? 160) then Return true
       else Return false)))
    (fun weekly_reset_detected =>
  bind
    (bind (json_gt old_rate_pct 80) (fun high =>
     if high && (hourly_used <? 20) then Return true
     else
       bind (json_lt old_rate_reset (1 # 2)) (fun imminent =>
       if imminent && (hourly_reset_hours >? 2) then Return true
       else Return false)))
    (fun rate_reset_detected =>
  let state := <["weekly_last_percent" := JFloat weekly_used]> state in
  let state := <["weekly_last_reset_hours" := JFloat weekly_reset_hours]> state in
  let state := <["weekly_was_full" := JBool (weekly_used >? 80)]> state in
  let state := <["rate_last_percent" := JFloat hourly_used]> state in
  let state := <["rate_last_last_reset_hours" := JFloat hourly_reset_hours]> state in
  let state := <["rate_was_full" := JBool (hourly_used >? 70)]> state in
  let state := <["last_check_time" := JStr now_iso]> state in
  let state :=
    if weekly_reset_detected
    then <["weekly_reset_notified" := JBool false]> state else state in
  let state :=
    if rate_reset_detected
    then <["rate_reset_notified" := JBool false]> state else state in
  Return (state, weekly_reset_detected || rate_reset_detected))).

End UpdateUsage.

(** Both stored observations consistent. *)
Definition state_consistent (s : MonitorState) : Prop :=
  observation_consistent Weekly s /\ observation_consistent Rate s.

(** The sample of one kind in a snapshot. *)
Definition usage_percent (k : QuotaKind) (u : UsageInfo) : Q :=
  match k with
  | Weekly => weekly_usage_percent u
  | Rate => rate_limit_percent u
  end.

Definition usage_reset_hours (k : QuotaKind) (u : UsageInfo) : Q :=
  match k with
  | Weekly => weekly_reset_hours u
  | Rate => rate_limit_reset_hours u
  end.

(** Two states with the same stored observations: the flags and the check
    time may differ. *)
Definition same_observation (s s' : MonitorState) : Prop :=
  forall k : QuotaKind,
    was_full k s = was_full k s'
    /\ last_percent k s = last_percent k s'
    /\ last_reset_hours k s = last_reset_hours k s'.

(** * Properties *)

(** ** The boolean comparisons decide the order of [Q] *)

Module PyNumFacts.

Lemma ltb_lt (x y : Q) : (x <? y) = true <-> x < y.
Proof. unfold PyNum.ltb, Qlt. apply Z.ltb_lt. Qed.

Lemma ltb_ge (x y : Q) : (x <? y) = false <-> y <= x.
Proof. unfold PyNum.ltb, Qle. rewrite Z.ltb_ge. reflexivity. Qed.

Lemma gtb_gt (x y : Q) : (x >? y) = true <-> y < x.
Proof. apply ltb_lt. Qed.

Lemma gtb_le (x y : Q) : (x >? y) = false <-> x <= y.
Proof. apply ltb_ge. Qed.

End PyNumFacts.

(** ** The detector *)

Lemma weekly_is_reset_orb (s : MonitorState) (p r : Q) :
  weekly_is_reset s p r =
    (weekly_was_full s && (p <? 20))
    || ((weekly_last_reset_hours s <? 1) && (r >? 160))
    || ((weekly_last_percent s >? 90) && (p <? weekly_last_percent s - 50)).
Proof.
  unfold weekly_is_reset.
  destruct (weekly_was_full s && (p <? 20)); [reflexivity|].
  destruct ((weekly_last_reset_hours s <? 1) && (r >? 160)); [reflexivity|].
  destruct ((weekly_last_percent s >? 90) && (p <? weekly_last_percent s - 50));
    reflexivity.
Qed.

Lemma rate_is_reset_orb (s : MonitorState) (p r : Q) :
  rate_is_reset s p r =
    (rate_was_full s && (p <? 20))
    || ((rate_last_last_reset_hours s <? (1 # 2)) && (r >? 2))
    || ((rate_last_percent s >? 80) && (p <? rate_last_percent s - 40)).
Proof.
  unfold rate_is_reset.
  destruct (rate_was_full s && (p <? 20)); [reflexivity|].
  destruct ((rate_last_last_reset_hours s <? (1 # 2)) && (r >? 2)); [reflexivity|].
  destruct ((rate_last_percent s >? 80) && (p <? rate_last_percent s - 40));
    reflexivity.
Qed.

Lemma update_and_check_weekly_returns (s : MonitorState) (p r : Q) (t : string) :
  snd (update_and_check_weekly s p r t) = weekly_is_reset s p r.
Proof.
  unfold update_and_check_weekly.
  destruct (weekly_is_reset s p r); reflexivity.
Qed.

Lemma update_and_check_rate_returns (s : MonitorState) (p r : Q) (t : string) :
  snd (update_and_check_rate s p r t) = rate_is_reset s p r.
Proof.
  unfold update_and_check_rate.
  destruct (rate_is_reset s p r); reflexivity.
Qed.

Lemma update_and_check_returns (k : QuotaKind) (s : MonitorState) (p r : Q) (t : string) :
  snd (update_and_check k s p r t) = is_reset k s p r.
Proof.
  destruct k; [apply update_and_check_weekly_returns | apply update_and_check_rate_returns].
Qed.

(** The source's two chains compute the specification's rule. *)
Lemma is_reset_refines_spec (k : QuotaKind) (s : MonitorState) (p r : Q) :
  is_reset k s p r = Spec.isReset k s p r.
Proof.
  destruct k; simpl; [apply weekly_is_reset_orb | apply rate_is_reset_orb].
Qed.

(** The specification's sample transitions. *)
Example level_crossing_fires :
  weekly_is_reset
    (set_weekly_last_percent 95 (set_weekly_was_full true MonitorState_default)) 10 100
  = true.
Proof. reflexivity. Qed.

Example countdown_wrap_fires (p : Q) :
  weekly_is_reset (set_weekly_last_reset_hours (1 # 5) MonitorState_default) p 165
  = true.
Proof. reflexivity. Qed.

Example magnitude_drop_fires :
  weekly_is_reset
    (set_weekly_last_reset_hours 100 (set_weekly_last_percent 92 MonitorState_default))
    30 99
  = true.
Proof. reflexivity. Qed.

Example magnitude_drop_below_floor :
  weekly_is_reset
    (set_weekly_last_reset_hours 100 (set_weekly_last_percent 85 MonitorState_default))
    30 99
  = false.
Proof. reflexivity. Qed.

(** Boolean tests against the order of [Q]. *)
Ltac reflect_tests :=
  repeat match goal with
  | H : (_ && _) = true |- _ => apply andb_true_iff in H; destruct H
  | H : (_ <? _) = true |- _ => apply PyNumFacts.ltb_lt in H
  | H : (_ >? _) = true |- _ => apply PyNumFacts.gtb_gt in H
  | H : (_ <? _) = false |- _ => apply PyNumFacts.ltb_ge in H
  | H : (_ >? _) = false |- _ => apply PyNumFacts.gtb_le in H
  end.

(** C1.  The weekly detector reports a reset exactly when, on the state
    before the call, [was_full] holds and the percent is below 20, or the
    stored reset hours are below 1 and the new ones above 160, or the stored
    percent is above 90 and the new one is below it by more than 50; the 5h
    detector likewise with 20, 0.5 and 2, 80 and 40. *)
Theorem detector_reports_reset_iff (s : MonitorState) (p r : Q) (t : string) :
  (snd (update_and_check_weekly s p r t) = true <->
     (weekly_was_full s = true /\ p < 20)
     \/ (weekly_last_reset_hours s < 1 /\ 160 < r)
     \/ (90 < weekly_last_percent s /\ p < weekly_last_percent s - 50))
  /\
  (snd (update_and_check_rate s p r t) = true <->
     (rate_was_full s = true /\ p < 20)
     \/ (rate_last_last_reset_hours s < 1 # 2 /\ 2 < r)
     \/ (80 < rate_last_percent s /\ p < rate_last_percent s - 40)).
Proof.
  rewrite update_and_check_weekly_returns, update_and_check_rate_returns.
  rewrite weekly_is_reset_orb, rate_is_reset_orb.
  rewrite !orb_true_iff, !andb_true_iff.
  rewrite !PyNumFacts.ltb_lt, !PyNumFacts.gtb_gt.
  split; tauto.
Qed.

(** A first observation on the default state that is reported as a reset:
    84 percent used, 166 hours to the weekly reset. *)
Lemma cold_start_reset_reported :
  weekly_was_full MonitorState_default = false
  /\ weekly_last_percent MonitorState_default = 0
  /\ 0 <= 84 /\ 0 <= 166
  /\ weekly_is_reset MonitorState_default 84 166 = true
  /\ snd (update_and_check_weekly MonitorState_default 84 166 "2026-01-01T00:00:00") = true.
Proof.
  repeat split; try reflexivity; discriminate.
Qed.

(** C2, as the code has it.  On a state with [was_full] false and a stored
    percent of 0, the detector reports a reset exactly when the countdown
    signal fires: stored reset hours below 1 (0.5 for the 5h limit) and new
    ones above 160 (2).  On the default state, whose stored reset hours are 0,
    that is: exactly when the new reset hours are above 160 (2). *)
Theorem cold_start_reset_only_by_countdown
    (k : QuotaKind) (s : MonitorState) (p r : Q) (t : string) :
  was_full k s = false ->
  last_percent k s == 0 ->
  snd (update_and_check k s p r t) =
    (last_reset_hours k s <? Thresholds.imminentResetHours k)
    && (r >? Thresholds.postResetHoursFloor k)
  /\ snd (update_and_check k MonitorState_default p r t) =
       (r >? Thresholds.postResetHoursFloor k).
Proof.
  intros Hfull Hzero. split.
  - rewrite update_and_check_returns.
    destruct k; simpl in *.
    + rewrite weekly_is_reset_orb, Hfull. simpl.
      assert (E : (weekly_last_percent s >? 90) = false)
        by (apply PyNumFacts.gtb_le; lra).
      rewrite E. simpl. apply orb_false_r.
    + rewrite rate_is_reset_orb, Hfull. simpl.
      assert (E : (rate_last_percent s >? 80) = false)
        by (apply PyNumFacts.gtb_le; lra).
      rewrite E. simpl. apply orb_false_r.
  - rewrite update_and_check_returns.
    destruct k; simpl.
    + rewrite weekly_is_reset_orb. simpl. apply orb_false_r.
    + rewrite rate_is_reset_orb. simpl. apply orb_false_r.
Qed.

Lemma cold_start_reset_only_by_countdown_witness :
  was_full Weekly MonitorState_default = false
  /\ last_percent Weekly MonitorState_default == 0
  /\ snd (update_and_check Weekly MonitorState_default 10 100 "t") =
       (last_reset_hours Weekly MonitorState_default <? Thresholds.imminentResetHours Weekly)
       && (100 >? Thresholds.postResetHoursFloor Weekly).
Proof.
  split; [reflexivity|]. split; [reflexivity|].
  apply (cold_start_reset_only_by_countdown Weekly MonitorState_default 10 100 "t");
    reflexivity.
Defined.

(** C4.  A detected reset clears [resetNotified]; the returned boolean is
    [is_reset and not resetNotified] on the flag after that clear, so it is
    [is_reset], whatever the flag was before the call. *)
Theorem notify_decision_after_clear
    (k : QuotaKind) (s : MonitorState) (p r : Q) (t : string) :
  let s' := fst (update_and_check k s p r t) in
  reset_notified k s' = (if is_reset k s p r then false else reset_notified k s)
  /\ snd (update_and_check k s p r t) = is_reset k s p r && negb (reset_notified k s')
  /\ snd (update_and_check k s p r t) = is_reset k s p r
  /\ forall b : bool,
       snd (update_and_check k (set_reset_notified k b s) p r t) =
       snd (update_and_check k s p r t).
Proof.
  cbv zeta. repeat split.
  - destruct k; simpl;
      [unfold update_and_check_weekly; destruct (weekly_is_reset s p r)
      |unfold update_and_check_rate; destruct (rate_is_reset s p r)]; reflexivity.
  - destruct k; reflexivity.
  - apply update_and_check_returns.
  - intros b. rewrite !update_and_check_returns. destruct k; reflexivity.
Qed.

(** C5.  After every weekly detector call the state holds the sample:
    [weekly_last_percent] is the percent, [weekly_last_reset_hours] the reset
    hours, [weekly_was_full] is [percent > 80]; after every 5h call likewise,
    with [percent > 70]. *)
Theorem detector_stores_observation (s : MonitorState) (p r : Q) (t : string) :
  (let s' := fst (update_and_check_weekly s p r t) in
   weekly_last_percent s' = p
   /\ weekly_last_reset_hours s' = r
   /\ weekly_was_full s' = (p >? 80))
  /\
  (let s' := fst (update_and_check_rate s p r t) in
   rate_last_percent s' = p
   /\ rate_last_last_reset_hours s' = r
   /\ rate_was_full s' = (p >? 70)).
Proof.
  unfold update_and_check_weekly, update_and_check_rate.
  destruct (weekly_is_reset s p r), (rate_is_reset s p r); simpl; repeat split.
Qed.

(** C10.  A weekly detector call leaves the four 5h fields as they were, and
    a 5h call leaves the four weekly fields as they were. *)
Theorem detector_frame (s : MonitorState) (p r : Q) (t : string) :
  (let s' := fst (update_and_check_weekly s p r t) in
   rate_was_full s' = rate_was_full s
   /\ rate_last_percent s' = rate_last_percent s
   /\ rate_last_last_reset_hours s' = rate_last_last_reset_hours s
   /\ rate_reset_notified s' = rate_reset_notified s)
  /\
  (let s' := fst (update_and_check_rate s p r t) in
   weekly_was_full s' = weekly_was_full s
   /\ weekly_last_percent s' = weekly_last_percent s
   /\ weekly_last_reset_hours s' = weekly_last_reset_hours s
   /\ weekly_reset_notified s' = weekly_reset_notified s).
Proof.
  unfold update_and_check_weekly, update_and_check_rate.
  destruct (weekly_is_reset s p r), (rate_is_reset s p r); simpl; repeat split.
Qed.

(** ** Stable snapshots *)

Lemma observation_consistent_default (k : QuotaKind) :
  observation_consistent k MonitorState_default.
Proof. destruct k; reflexivity. Qed.

Lemma observation_consistent_after_check
    (k : QuotaKind) (s : MonitorState) (p r : Q) (t : string) :
  observation_consistent k (fst (update_and_check k s p r t)).
Proof.
  unfold observation_consistent.
  destruct k; simpl;
    [unfold update_and_check_weekly; destruct (weekly_is_reset s p r)
    |unfold update_and_check_rate; destruct (rate_is_reset s p r)]; reflexivity.
Qed.

(** The stored observation, offered again as the sample, fires no signal. *)
Lemma stored_observation_is_no_reset (k : QuotaKind) (s : MonitorState) :
  observation_consistent k s ->
  is_reset k s (last_percent k s) (last_reset_hours k s) = false.
Proof.
  unfold observation_consistent. intros Hc.
  destruct (is_reset k s (last_percent k s) (last_reset_hours k s)) eqn:E;
    [exfalso | reflexivity].
  destruct k; simpl in *.
  - rewrite weekly_is_reset_orb in E.
    apply orb_true_iff in E as [E | E]; [apply orb_true_iff in E as [E | E] |].
    + apply andb_true_iff in E as [Hf Hlow]. rewrite Hc in Hf.
      reflect_tests. lra.
    + reflect_tests. lra.
    + reflect_tests. lra.
  - rewrite rate_is_reset_orb in E.
    apply orb_true_iff in E as [E | E]; [apply orb_true_iff in E as [E | E] |].
    + apply andb_true_iff in E as [Hf Hlow]. rewrite Hc in Hf.
      reflect_tests. lra.
    + reflect_tests. lra.
    + reflect_tests. lra.
Qed.

(** A call that detects nothing keeps the flag; it stores the sample. *)
Lemma quiet_check_state (k : QuotaKind) (s : MonitorState) (p r : Q) (t : string) :
  is_reset k s p r = false ->
  let s' := fst (update_and_check k s p r t) in
  reset_notified k s' = reset_notified k s
  /\ last_percent k s' = p
  /\ last_reset_hours k s' = r.
Proof.
  intros Hq. destruct k; simpl in *.
  - unfold update_and_check_weekly. rewrite Hq. repeat split.
  - unfold update_and_check_rate. rewrite Hq. repeat split.
Qed.

Lemma repeat_check_quiet (k : QuotaKind) (p r : Q) (clock : list string) :
  forall s : MonitorState,
    observation_consistent k s ->
    last_percent k s = p ->
    last_reset_hours k s = r ->
    Forall (fun b => b = false) (snd (repeat_check k s p r clock))
    /\ reset_notified k (fst (repeat_check k s p r clock)) = reset_notified k s.
Proof.
  induction clock as [| t clock IH]; intros s Hc Hp Hr; simpl.
  - split; [constructor | reflexivity].
  - assert (Hq : is_reset k s p r = false)
      by (subst p r; apply stored_observation_is_no_reset, Hc).
    pose proof (update_and_check_returns k s p r t) as Hret.
    pose proof (quiet_check_state k s p r t Hq) as (Hn & Hp' & Hr').
    pose proof (observation_consistent_after_check k s p r t) as Hc'.
    destruct (update_and_check k s p r t) as [s1 b]. simpl in *.
    specialize (IH s1 Hc' Hp' Hr') as [IHf IHn].
    destruct (repeat_check k s1 p r clock) as [s2 bs]. simpl in *.
    split.
    + constructor; [congruence | exact IHf].
    + congruence.
Qed.

(** From any state at all: after one detector call and a delivered
    notification, further calls with the same sample return false. *)
Lemma quiet_after_delivery
    (k : QuotaKind) (s0 : MonitorState) (p r : Q) (t0 : string) (clock : list string) :
  let s := set_reset_notified k true (fst (update_and_check k s0 p r t0)) in
  Forall (fun b => b = false) (snd (repeat_check k s p r clock))
  /\ reset_notified k (fst (repeat_check k s p r clock)) = true.
Proof.
  cbv zeta.
  pose proof (observation_consistent_after_check k s0 p r t0) as Hc.
  set (s1 := fst (update_and_check k s0 p r t0)) in *.
  assert (Hp : last_percent k s1 = p /\ last_reset_hours k s1 = r).
  { subst s1. destruct k; simpl;
      [unfold update_and_check_weekly; destruct (weekly_is_reset s0 p r)
      |unfold update_and_check_rate; destruct (rate_is_reset s0 p r)];
      split; reflexivity. }
  destruct Hp as [Hp Hr].
  destruct (repeat_check_quiet k p r clock (set_reset_notified k true s1))
    as [Hf Hn].
  - unfold observation_consistent in *. destruct k; exact Hc.
  - destruct k; exact Hp.
  - destruct k; exact Hr.
  - split; [exact Hf |]. rewrite Hn. destruct k; reflexivity.
Qed.

(** C8.  Once [resetNotified] of a kind is true on a consistent stored
    observation, detector calls of that kind whose sample is that stored
    observation all return false, however many follow, and the flag stays
    true. *)
Theorem stable_snapshots_never_notify_again
    (k : QuotaKind) (s : MonitorState) (clock : list string) :
  reset_notified k s = true ->
  observation_consistent k s ->
  let run := repeat_check k s (last_percent k s) (last_reset_hours k s) clock in
  Forall (fun should_notify => should_notify = false) (snd run)
  /\ length (snd run) = length clock
  /\ reset_notified k (fst run) = true.
Proof.
  intros Hn Hc run.
  destruct (repeat_check_quiet k _ _ clock s Hc eq_refl eq_refl) as [Hf Hk].
  repeat split.
  - exact Hf.
  - subst run. clear.
    generalize s, (last_percent k s), (last_reset_hours k s).
    induction clock as [| t clock IH]; intros s0 p r; simpl; [reflexivity|].
    destruct (update_and_check k s0 p r t) as [s1 b].
    specialize (IH s1 p r).
    destruct (repeat_check k s1 p r clock) as [s2 bs]. simpl in *. congruence.
  - subst run. congruence.
Qed.

(** The state a delivered weekly notification leaves after the sample
    (5 percent, 160.5 hours): three further polls of the same sample. *)
Lemma stable_snapshots_never_notify_again_witness :
  let s := mark_notified true false
             (fst (update_and_check_weekly
                     (set_weekly_was_full true MonitorState_default)
                     5 (321 # 2) "t0")) in
  let run := repeat_check Weekly s (last_percent Weekly s)
               (last_reset_hours Weekly s) ["t1"; "t2"; "t3"] in
  reset_notified Weekly s = true
  /\ observation_consistent Weekly s
  /\ Forall (fun should_notify => should_notify = false) (snd run)
  /\ length (snd run) = 3%nat
  /\ reset_notified Weekly (fst run) = true.
Proof.
  cbv zeta.
  split; [reflexivity|]. split; [reflexivity|].
  apply (stable_snapshots_never_notify_again Weekly
           (mark_notified true false
              (fst (update_and_check_weekly
                      (set_weekly_was_full true MonitorState_default)
                      5 (321 # 2) "t0")))
           ["t1"; "t2"; "t3"]); reflexivity.
Defined.

(** ** Polls *)

(** What the detector calls do to the two flags, and what the 5h detector
    sees after the weekly call. *)
Lemma weekly_check_flags (s : MonitorState) (p r : Q) (t : string) :
  let s' := fst (update_and_check_weekly s p r t) in
  weekly_reset_notified s' =
    (if weekly_is_reset s p r then false else weekly_reset_notified s)
  /\ rate_reset_notified s' = rate_reset_notified s.
Proof.
  unfold update_and_check_weekly. destruct (weekly_is_reset s p r); split; reflexivity.
Qed.

Lemma rate_check_flags (s : MonitorState) (p r : Q) (t : string) :
  let s' := fst (update_and_check_rate s p r t) in
  rate_reset_notified s' =
    (if rate_is_reset s p r then false else rate_reset_notified s)
  /\ weekly_reset_notified s' = weekly_reset_notified s.
Proof.
  unfold update_and_check_rate. destruct (rate_is_reset s p r); split; reflexivity.
Qed.

Lemma rate_is_reset_after_weekly (s : MonitorState) (p r : Q) (t : string) (p' r' : Q) :
  rate_is_reset (fst (update_and_check_weekly s p r t)) p' r' = rate_is_reset s p' r'.
Proof.
  unfold update_and_check_weekly. destruct (weekly_is_reset s p r); reflexivity.
Qed.

(** The end-to-end scenario does not stay silent until the fourth poll: its
    first poll already requests the combined notification. *)
Lemma scenario_first_poll_notifies :
  let requested :=
    snd (run_polls always_succeeds "me@example.com" MonitorState_default
           (scenario (fun _ => ("2026-01-01T00:00:00", "2026-01-01T00:00:00", 0%Z)))) in
  nth 0 requested [] = [BothReset "me@example.com"]
  /\ requested <> [[]; []; []; [BothReset "me@example.com"]].
Proof.
  cbv zeta. split; [reflexivity | discriminate].
Qed.

(** C3, as the code has it.  From the default state, with a notifier that
    always succeeds, the four polls of the scenario request: the combined
    notification on the first poll, nothing on the second, the weekly
    notification on the third, the combined notification on the fourth. *)
Theorem scenario_notifications
    (clock : nat -> string * string * datetime) (NOTIFY_EMAIL : string) :
  snd (run_polls always_succeeds NOTIFY_EMAIL MonitorState_default (scenario clock)) =
    [ [BothReset NOTIFY_EMAIL];
      [];
      [QuotaReset NOTIFY_EMAIL "Weekly limit"];
      [BothReset NOTIFY_EMAIL] ].
Proof. reflexivity. Qed.

(** [check_and_notify] on a snapshot, with the detector calls named. *)
Lemma check_and_notify_unfold (u : UsageInfo) (notifier : Notifier)
    (NOTIFY_EMAIL : string) (s : MonitorState) (tw tr : string) (now : datetime) :
  let mid := after_detection u s tw tr in
  let wr := weekly_is_reset s (weekly_usage_percent u) (weekly_reset_hours u) in
  let rr := rate_is_reset s (rate_limit_percent u) (rate_limit_reset_hours u) in
  let both := BothReset NOTIFY_EMAIL in
  let weekly := QuotaReset NOTIFY_EMAIL "Weekly limit" in
  let rate := QuotaReset NOTIFY_EMAIL "5h limit" in
  check_and_notify (Some u) notifier NOTIFY_EMAIL s tw tr now =
    mkPollResult
      (if wr && rr
       then (if notifier both then mark_notified true true mid else mid)
       else
         let s1 := if wr && notifier weekly then mark_notified true false mid else mid in
         if rr && notifier rate then mark_notified false true s1 else s1)
      (if wr && rr then [both]
       else (if wr then [weekly] else []) ++ (if rr then [rate] else []))
      match calculate_next_check_time u now with
      | Return next_check => (true, Some next_check)
      | Raise _ => (false, None)
      end.
Proof.
  cbv zeta. unfold check_and_notify, after_detection.
  pose proof (update_and_check_weekly_returns s (weekly_usage_percent u)
                (weekly_reset_hours u) tw) as Hw.
  pose proof (rate_is_reset_after_weekly s (weekly_usage_percent u)
                (weekly_reset_hours u) tw (rate_limit_percent u)
                (rate_limit_reset_hours u)) as Hfr.
  destruct (update_and_check_weekly s (weekly_usage_percent u)
              (weekly_reset_hours u) tw) as [s1 b1].
  simpl in Hw, Hfr. subst b1. cbn [fst snd].
  pose proof (update_and_check_rate_returns s1 (rate_limit_percent u)
                (rate_limit_reset_hours u) tr) as Hr.
  destruct (update_and_check_rate s1 (rate_limit_percent u)
              (rate_limit_reset_hours u) tr) as [s2 b2].
  simpl in Hr. subst b2. rewrite Hfr. simpl.
  destruct (weekly_is_reset s (weekly_usage_percent u) (weekly_reset_hours u)),
           (rate_is_reset s (rate_limit_percent u) (rate_limit_reset_hours u)); simpl.
  - destruct (notifier (BothReset NOTIFY_EMAIL)); reflexivity.
  - destruct (notifier (QuotaReset NOTIFY_EMAIL "Weekly limit")); reflexivity.
  - destruct (notifier (QuotaReset NOTIFY_EMAIL "5h limit")); reflexivity.
  - reflexivity.
Qed.

(** The flags once the detector calls of a poll are done. *)
Lemma after_detection_flags (u : UsageInfo) (s : MonitorState) (tw tr : string) :
  let mid := after_detection u s tw tr in
  weekly_reset_notified mid =
    (if weekly_is_reset s (weekly_usage_percent u) (weekly_reset_hours u)
     then false else weekly_reset_notified s)
  /\ rate_reset_notified mid =
    (if rate_is_reset s (rate_limit_percent u) (rate_limit_reset_hours u)
     then false else rate_reset_notified s).
Proof.
  cbv zeta. unfold after_detection.
  destruct (weekly_check_flags s (weekly_usage_percent u) (weekly_reset_hours u) tw)
    as [Hw1 Hw2].
  destruct (rate_check_flags
              (fst (update_and_check_weekly s (weekly_usage_percent u)
                      (weekly_reset_hours u) tw))
              (rate_limit_percent u) (rate_limit_reset_hours u) tr) as [Hr1 Hr2].
  rewrite rate_is_reset_after_weekly in Hr1.
  split.
  - rewrite Hr2. exact Hw1.
  - rewrite Hr1, Hw2. reflexivity.
Qed.

(** C7.  In one poll: both detectors firing requests the one combined
    notification, exactly one firing requests the notification of that kind,
    none firing requests nothing.  A kind's [resetNotified], false once the
    detector calls are done, is true at the end of the poll if and only if
    a notification telling of that kind was requested and the notifier
    answered success; a flag is never left true by a failed delivery of
    that poll. *)
Theorem dispatch_marks_on_success (u : UsageInfo) (notifier : Notifier)
    (NOTIFY_EMAIL : string) (s : MonitorState) (tw tr : string) (now : datetime) :
  let r := check_and_notify (Some u) notifier NOTIFY_EMAIL s tw tr now in
  let mid := after_detection u s tw tr in
  let wr := weekly_is_reset s (weekly_usage_percent u) (weekly_reset_hours u) in
  let rr := rate_is_reset s (rate_limit_percent u) (rate_limit_reset_hours u) in
  poll_requested r =
    (if wr && rr then [BothReset NOTIFY_EMAIL]
     else (if wr then [QuotaReset NOTIFY_EMAIL "Weekly limit"] else [])
          ++ (if rr then [QuotaReset NOTIFY_EMAIL "5h limit"] else []))
  /\ (forall k : QuotaKind,
        (reset_notified k mid = false /\ reset_notified k (poll_state r) = true)
        <-> exists n : Notification,
              In n (poll_requested r) /\ notifies k n = true /\ notifier n = true)
  /\ weekly_reset_notified (poll_state r) =
       (if wr
        then notifier (if rr then BothReset NOTIFY_EMAIL
                       else QuotaReset NOTIFY_EMAIL "Weekly limit")
        else weekly_reset_notified s)
  /\ rate_reset_notified (poll_state r) =
       (if rr
        then notifier (if wr then BothReset NOTIFY_EMAIL
                       else QuotaReset NOTIFY_EMAIL "5h limit")
        else rate_reset_notified s).
Proof.
  cbv zeta. rewrite check_and_notify_unfold. cbv zeta. simpl poll_requested.
  simpl poll_state.
  destruct (after_detection_flags u s tw tr) as [Hmw Hmr].
  set (mid := after_detection u s tw tr) in *.
  set (wr := weekly_is_reset s (weekly_usage_percent u) (weekly_reset_hours u)) in *.
  set (rr := rate_is_reset s (rate_limit_percent u) (rate_limit_reset_hours u)) in *.
  split; [reflexivity|].
  split.
  - intros k.
    destruct wr, rr; simpl;
      destruct (notifier (BothReset NOTIFY_EMAIL)) eqn:Eb,
               (notifier (QuotaReset NOTIFY_EMAIL "Weekly limit")) eqn:Ew,
               (notifier (QuotaReset NOTIFY_EMAIL "5h limit")) eqn:Er;
      destruct k; simpl; rewrite ?Hmw, ?Hmr;
      (split;
       [ intros [Hf Ht];
         first [ congruence
               | eexists; split; [left; reflexivity | split; [reflexivity | assumption]] ]
       | intros (n & Hin & Hk & Hd);
         simpl in Hin;
         repeat (destruct Hin as [<- | Hin]; simpl in Hk; try congruence);
         try contradiction;
         split; reflexivity ]).
  - destruct wr, rr; simpl;
      destruct (notifier (BothReset NOTIFY_EMAIL)),
               (notifier (QuotaReset NOTIFY_EMAIL "Weekly limit")),
               (notifier (QuotaReset NOTIFY_EMAIL "5h limit"));
      simpl; rewrite ?Hmw, ?Hmr; split; reflexivity.
Qed.

(** ** Scheduling *)

Lemma round_half_even_bounds (q : Q) :
  (Qfloor q <= round_half_even q <= Qfloor q + 1)%Z.
Proof.
  unfold round_half_even.
  destruct (q - inject_Z (Qfloor q) <? 1 # 2);
    [| destruct ((1 # 2) <? q - inject_Z (Qfloor q));
       [| destruct (Z.even (Qfloor q))]]; lia.
Qed.

(** Rounding keeps the order. *)
Lemma round_half_even_mono (q1 q2 : Q) :
  q1 <= q2 -> (round_half_even q1 <= round_half_even q2)%Z.
Proof.
  intros Hle.
  pose proof (Qfloor_resp_le q1 q2 Hle) as Hf.
  destruct (Z.eq_dec (Qfloor q1) (Qfloor q2)) as [E | NE].
  - unfold round_half_even. rewrite <- E.
    destruct (q1 - inject_Z (Qfloor q1) <? 1 # 2) eqn:A1;
      destruct ((1 # 2) <? q1 - inject_Z (Qfloor q1)) eqn:B1;
      destruct (q2 - inject_Z (Qfloor q1) <? 1 # 2) eqn:A2;
      destruct ((1 # 2) <? q2 - inject_Z (Qfloor q1)) eqn:B2;
      destruct (Z.even (Qfloor q1));
      try lia; exfalso; reflect_tests; lra.
  - pose proof (round_half_even_bounds q1).
    pose proof (round_half_even_bounds q2).
    lia.
Qed.

(** Rounding gives a nearest integer, and the even one of two. *)
Lemma round_half_even_nearest (q : Q) :
  Qabs (inject_Z (round_half_even q) - q) <= 1 # 2
  /\ (Qabs (inject_Z (round_half_even q) - q) == 1 # 2 ->
      Z.even (round_half_even q) = true).
Proof.
  pose proof (Qfloor_le q) as Hlo.
  pose proof (Qlt_floor q) as Hhi.
  rewrite inject_Z_plus in Hhi.
  change (inject_Z 1) with 1 in Hhi.
  unfold round_half_even.
  destruct (q - inject_Z (Qfloor q) <? 1 # 2) eqn:A;
    [| destruct ((1 # 2) <? q - inject_Z (Qfloor q)) eqn:B;
       [| destruct (Z.even (Qfloor q)) eqn:Ev]];
    reflect_tests.
  - split.
    + apply Qabs_Qle_condition. split; lra.
    + intros Heq. exfalso.
      rewrite Qabs_neg in Heq by lra. lra.
  - rewrite inject_Z_plus. change (inject_Z 1) with 1.
    split.
    + apply Qabs_Qle_condition. split; lra.
    + intros Heq. exfalso.
      rewrite Qabs_pos in Heq by lra. lra.
  - split.
    + apply Qabs_Qle_condition. split; lra.
    + intros _. exact Ev.
  - split.
    + rewrite inject_Z_plus. change (inject_Z 1) with 1.
      apply Qabs_Qle_condition. split; lra.
    + intros _. rewrite Z.even_add. rewrite Ev. reflexivity.
Qed.

Lemma hours_microseconds_mono (h1 h2 : Q) :
  h1 <= h2 -> (hours_microseconds h1 <= hours_microseconds h2)%Z.
Proof.
  intros H. unfold hours_microseconds. apply round_half_even_mono. lra.
Qed.

(** The smaller of the two rounded hours is the rounded smaller hours. *)
Lemma hours_microseconds_min (wh rh : Q) :
  Z.min (hours_microseconds wh) (hours_microseconds rh) =
  hours_microseconds (Qmin wh rh).
Proof.
  unfold Qmin, GenericMinMax.gmin.
  destruct (Qcompare_spec wh rh) as [Heq | Hlt | Hgt].
  - pose proof (hours_microseconds_mono wh rh ltac:(lra)). lia.
  - pose proof (hours_microseconds_mono wh rh ltac:(lra)). lia.
  - pose proof (hours_microseconds_mono rh wh ltac:(lra)). lia.
Qed.

(** The wait in seconds exceeds [m] seconds exactly when the difference
    exceeds [m] million microseconds. *)
Lemma total_seconds_gtb (td : timedelta) (m : Z) :
  (total_seconds td >? inject_Z m) = (m * 1000000 <? td)%Z.
Proof.
  unfold PyNum.gtb, PyNum.ltb, total_seconds. cbn.
  rewrite !Z.mul_1_r. reflexivity.
Qed.

(** When [calculate_next_check_time] returns, it returns [now] plus the
    rounded smaller hours plus five minutes; when it raises, it raises
    [OverflowError]. *)
Lemma calculate_next_check_time_inv (u : UsageInfo) (now : datetime) :
  match calculate_next_check_time u now with
  | Return t =>
      t = (now
           + hours_microseconds (Qmin (weekly_reset_hours u) (rate_limit_reset_hours u))
           + timedelta_minutes 5)%Z
  | Raise e => e = OverflowError
  end.
Proof.
  unfold calculate_next_check_time, timedelta_hours, datetime_add, bind.
  repeat match goal with
         | |- context [if ?b then Return _ else Raise _] => destruct b
         end; try reflexivity.
  rewrite <- hours_microseconds_min.
  destruct (Z.ltb_spec
              (now + hours_microseconds (weekly_reset_hours u) + timedelta_minutes 5)
              (now + hours_microseconds (rate_limit_reset_hours u) + timedelta_minutes 5));
    lia.
Qed.

Lemma in_calendar (now d : Z) :
  (0 <= now)%Z -> (0 <= d)%Z -> (now + d + 300000000 <= 315537897599999999)%Z ->
  timedelta_in_range d = true
  /\ datetime_in_range (now + d) = true
  /\ datetime_in_range (now + d + 300000000) = true.
Proof.
  intros Hn Hd Hmax.
  unfold timedelta_in_range, datetime_in_range, datetime_min, datetime_max.
  rewrite !andb_true_iff, !Z.leb_le, !Z.ltb_lt. lia.
Qed.

(** It returns when [now] is in the calendar, the hours are not negative
    and the later of the two check times is in the calendar. *)
Lemma calculate_next_check_time_returns (u : UsageInfo) (now : datetime) :
  (0 <= now)%Z ->
  (0 <= hours_microseconds (weekly_reset_hours u))%Z ->
  (0 <= hours_microseconds (rate_limit_reset_hours u))%Z ->
  (now + hours_microseconds (weekly_reset_hours u) + 300000000
   <= 315537897599999999)%Z ->
  (now + hours_microseconds (rate_limit_reset_hours u) + 300000000
   <= 315537897599999999)%Z ->
  exists t : datetime, calculate_next_check_time u now = Return t.
Proof.
  intros Hnow Hw Hr Hwmax Hrmax.
  destruct (in_calendar now _ Hnow Hw Hwmax) as (W1 & W2 & W3).
  destruct (in_calendar now _ Hnow Hr Hrmax) as (R1 & R2 & R3).
  unfold calculate_next_check_time, timedelta_hours, datetime_add, bind.
  rewrite W1, W2, R1, R2.
  change (timedelta_minutes 5) with 300000000%Z.
  rewrite W3, R3.
  eexists. reflexivity.
Qed.

Lemma hours_microseconds_nonneg (h : Q) :
  0 <= h -> (0 <= hours_microseconds h)%Z.
Proof.
  intros H. apply (hours_microseconds_mono 0 h H).
Qed.

(** An integer within a half of another integer is that integer. *)
Lemma integer_within_half (d n : Z) :
  Qabs (inject_Z d - inject_Z n) <= 1 # 2 -> d = n.
Proof.
  intros H. apply Qabs_Qle_condition in H as [Hlo Hhi].
  assert (L : inject_Z n < inject_Z (d + 1)).
  { rewrite inject_Z_plus. change (inject_Z 1) with 1. lra. }
  assert (U : inject_Z d < inject_Z (n + 1)).
  { rewrite inject_Z_plus. change (inject_Z 1) with 1. lra. }
  rewrite <- Zlt_Qlt in L, U. lia.
Qed.




(** ** Loading the state *)

Lemma dom_asdict (s : MonitorState) : dom (asdict s) = field_names.
Proof.
  unfold field_names, asdict. rewrite !dom_insert_L. reflexivity.
Qed.

Lemma MonitorState_of_dict_asdict (s : MonitorState) :
  MonitorState_of_dict (asdict s) = Some s.
Proof. destruct s as [? ? ? ? ? ? [t |] ? ?]; reflexivity. Qed.

(** What was saved is what is loaded. *)
Lemma load_saved_state (s : MonitorState) :
  _load_state (saved_file s) = Return (asdict s).
Proof.
  unfold _load_state, saved_file. simpl.
  rewrite bool_decide_eq_true_2 by (rewrite dom_asdict; reflexivity).
  reflexivity.
Qed.

(** A file whose object has a field name with a value of another type:
    the constructor checks no value, so the file is loaded as it is, not
    replaced by the default state, and the instance has a string where a
    number is declared. *)
Lemma ill_typed_field_is_loaded :
  exists d : gmap string json,
    _load_state (Json (JObj (<["weekly_last_reset_hours" := JStr "abc"]> ∅))) = Return d
    /\ d !! "weekly_last_reset_hours" = Some (JStr "abc")
    /\ d <> asdict MonitorState_default
    /\ MonitorState_of_dict d = None.
Proof.
  eexists. split; [reflexivity |]. split; [reflexivity |]. split; [| reflexivity].
  intros H.
  apply (f_equal (fun m : gmap string json => m !! "weekly_last_reset_hours")) in H.
  vm_compute in H. discriminate H.
Qed.

(** C9, as the code has it.  Whatever is at the path, [_load_state]
    returns and does not raise.  It returns the default state when there is
    no file, when the file cannot be opened or decoded, when its text is not
    JSON, when the JSON value is not an object, and when the object has a
    key that is not a field; an object with field names only is accepted
    with its values unchecked and gives those values over the defaults.  The
    default state is the one with every flag false, every number zero and no
    check time. *)
Theorem load_state_never_raises :
  (forall f : state_file, exists d : gmap string json, _load_state f = Return d)
  /\ (forall f : state_file,
        _load_state f =
          Return match f with
                 | Json (JObj kwargs) =>
                     if bool_decide (dom kwargs ⊆ field_names)
                     then kwargs ∪ asdict MonitorState_default
                     else asdict MonitorState_default
                 | _ => asdict MonitorState_default
                 end)
  /\ MonitorState_of_dict (asdict MonitorState_default) =
       Some (mkMonitorState false 0 0 false 0 0 None false false).
Proof.
  assert (Hchar : forall f : state_file,
            _load_state f =
              Return match f with
                     | Json (JObj kwargs) =>
                         if bool_decide (dom kwargs ⊆ field_names)
                         then kwargs ∪ asdict MonitorState_default
                         else asdict MonitorState_default
                     | _ => asdict MonitorState_default
                     end).
  { intros [| | | | data]; try reflexivity.
    unfold _load_state, try_except_Exception, bind, open_and_json_load,
      MonitorState_init, os_path_exists.
    destruct data; try reflexivity.
    case_bool_decide; reflexivity. }
  split; [| split].
  - intros f. rewrite Hchar. eexists. reflexivity.
  - exact Hchar.
  - reflexivity.
Qed.

(** * Further properties *)

(** ** The state file *)

(** X1.  A state that [save_state] wrote is the state a later start loads:
    [_load_state] returns, and the instance it builds has the saved value in
    every field. *)
Theorem saved_state_loads_back (s : MonitorState) :
  exists d : gmap string json,
    _load_state (saved_file s) = Return d
    /\ MonitorState_of_dict d = Some s.
Proof.
  exists (asdict s). split.
  - apply load_saved_state.
  - apply MonitorState_of_dict_asdict.
Qed.

(** X2.  One key that is no field makes [_load_state] drop the whole file:
    the result is the default state, whatever the other keys hold. *)
Theorem unknown_key_discards_state
    (kwargs : gmap string json) (key : string) (v : json) :
  kwargs !! key = Some v ->
  key ∉ field_names ->
  _load_state (Json (JObj kwargs)) = Return (asdict MonitorState_default).
Proof.
  intros Hk Hnot.
  unfold _load_state, try_except_Exception, bind, open_and_json_load,
    MonitorState_init, os_path_exists.
  rewrite bool_decide_eq_false_2; [reflexivity |].
  intros Hsub. apply Hnot, Hsub. apply elem_of_dom. eauto.
Qed.

Lemma unknown_key_discards_state_witness :
  _load_state
    (Json (JObj (<["version" := JInt 2]>
                   (asdict (set_weekly_reset_notified true MonitorState_default)))))
  = Return (asdict MonitorState_default).
Proof.
  apply (unknown_key_discards_state _ "version" (JInt 2)).
  - reflexivity.
  - vm_compute. intros H. discriminate H.
Defined.

Lemma elem_of_field_names (key : string) :
  key ∈ field_names ->
  key = "weekly_was_full" \/ key = "weekly_last_percent"
  \/ key = "weekly_last_reset_hours" \/ key = "rate_was_full"
  \/ key = "rate_last_percent" \/ key = "rate_last_last_reset_hours"
  \/ key = "last_check_time" \/ key = "weekly_reset_notified"
  \/ key = "rate_reset_notified".
Proof.
  unfold field_names, asdict. rewrite !dom_insert_L, dom_empty_L.
  rewrite !elem_of_union, !elem_of_singleton, elem_of_empty. tauto.
Qed.

(** X3.  A file that lacks one field loads with that field at its default
    and every other field as written. *)
Theorem missing_field_gets_default (s : MonitorState) (key : string) :
  key ∈ field_names ->
  exists v0 : json,
    asdict MonitorState_default !! key = Some v0
    /\ _load_state (Json (JObj (delete key (asdict s)))) =
         Return (<[key := v0]> (asdict s)).
Proof.
  intros Hin.
  apply elem_of_field_names in Hin.
  repeat (destruct Hin as [-> | Hin]); try subst key;
    eexists; (split; [reflexivity |]); reflexivity.
Qed.

Lemma missing_field_gets_default_witness :
  exists v0 : json,
    asdict MonitorState_default !! "last_check_time" = Some v0
    /\ _load_state
         (Json (JObj (delete "last_check_time"
                        (asdict (set_last_check_time (Some "2026-01-01T00:00:00")
                                   MonitorState_default))))) =
         Return (<["last_check_time" := v0]>
                   (asdict (set_last_check_time (Some "2026-01-01T00:00:00")
                              MonitorState_default))).
Proof.
  apply (missing_field_gets_default
           (set_last_check_time (Some "2026-01-01T00:00:00") MonitorState_default)
           "last_check_time").
  vm_compute. reflexivity.
Defined.

(** ** Polls, one after the other *)

(** The observation a poll leaves is its snapshot: percent, reset hours and
    the full flag of both kinds. *)
Lemma poll_stores_snapshot (u : UsageInfo) (notifier : Notifier)
    (to : string) (s : MonitorState) (tw tr : string) (now : datetime) (k : QuotaKind) :
  let s' := poll_state (check_and_notify (Some u) notifier to s tw tr now) in
  last_percent k s' = usage_percent k u
  /\ last_reset_hours k s' = usage_reset_hours k u
  /\ was_full k s' = (usage_percent k u >? Thresholds.fullThreshold k).
Proof.
  cbv zeta. rewrite check_and_notify_unfold. cbv zeta. simpl poll_state.
  unfold after_detection, update_and_check_weekly, update_and_check_rate.
  destruct (weekly_is_reset s (weekly_usage_percent u) (weekly_reset_hours u));
    destruct (rate_is_reset s (rate_limit_percent u) (rate_limit_reset_hours u));
    cbn [fst snd andb];
    repeat match goal with
           | |- context [rate_is_reset ?a ?b ?c] => destruct (rate_is_reset a b c)
           | |- context [notifier ?n] => destruct (notifier n)
           end;
    destruct k; repeat split.
Qed.

Lemma poll_leaves_consistent (u : UsageInfo) (notifier : Notifier)
    (to : string) (s : MonitorState) (tw tr : string) (now : datetime) :
  state_consistent (poll_state (check_and_notify (Some u) notifier to s tw tr now)).
Proof.
  split; unfold observation_consistent.
  - destruct (poll_stores_snapshot u notifier to s tw tr now Weekly) as (Hp & _ & Hf).
    rewrite Hf, Hp. reflexivity.
  - destruct (poll_stores_snapshot u notifier to s tw tr now Rate) as (Hp & _ & Hf).
    rewrite Hf, Hp. reflexivity.
Qed.

(** X4.  Consistency of the stored observations is an invariant of the
    monitor: polls, failed ones included, keep it. *)
Theorem run_polls_keeps_consistency (notifier : Notifier) (to : string)
    (inputs : list PollInput) (s : MonitorState) :
  state_consistent s ->
  state_consistent (fst (run_polls notifier to s inputs)).
Proof.
  revert s. induction inputs as [| i rest IH]; intros s Hs; simpl; [exact Hs |].
  specialize (IH (poll_state (check_and_notify (in_usage i) notifier to s
                                (in_iso_weekly i) (in_iso_rate i) (in_now i)))).
  destruct (run_polls notifier to _ rest) as [s' reqs]. simpl in *.
  apply IH.
  destruct (in_usage i) as [u |].
  - apply poll_leaves_consistent.
  - exact Hs.
Qed.

Lemma run_polls_keeps_consistency_witness :
  state_consistent
    (fst (run_polls always_succeeds "me@example.com" MonitorState_default
            [mkPollInput (Some (mkUsageInfo 95 (1 # 2) 10 4)) "t1" "t2" 0%Z;
             mkPollInput None "t3" "t4" 600000000%Z;
             mkPollInput (Some (mkUsageInfo 3 167 12 3)) "t5" "t6" 1200000000%Z])).
Proof.
  apply (run_polls_keeps_consistency always_succeeds "me@example.com").
  split; reflexivity.
Defined.

(** X5.  No poll requests more than one notification. *)
Theorem at_most_one_notification_per_poll (notifier : Notifier) (to : string)
    (inputs : list PollInput) (s : MonitorState) :
  Forall (fun requested => (length requested <= 1)%nat)
         (snd (run_polls notifier to s inputs)).
Proof.
  revert s. induction inputs as [| i rest IH]; intros s; simpl; [constructor |].
  specialize (IH (poll_state (check_and_notify (in_usage i) notifier to s
                                (in_iso_weekly i) (in_iso_rate i) (in_now i)))).
  destruct (run_polls notifier to _ rest) as [s' reqs]. simpl in *.
  constructor; [| exact IH].
  destruct (in_usage i) as [u |]; [| simpl; lia].
  rewrite check_and_notify_unfold. cbv zeta. simpl poll_requested.
  destruct (weekly_is_reset s (weekly_usage_percent u) (weekly_reset_hours u)),
           (rate_is_reset s (rate_limit_percent u) (rate_limit_reset_hours u));
    simpl; lia.
Qed.

(** The same snapshot again fires neither detector. *)
Lemma same_snapshot_is_no_reset (u : UsageInfo) (notifier : Notifier)
    (to : string) (s : MonitorState) (tw tr : string) (now : datetime) (k : QuotaKind) :
  is_reset k (poll_state (check_and_notify (Some u) notifier to s tw tr now))
    (usage_percent k u) (usage_reset_hours k u) = false.
Proof.
  destruct (poll_stores_snapshot u notifier to s tw tr now k) as (Hp & Hr & _).
  rewrite <- Hp, <- Hr.
  apply stored_observation_is_no_reset.
  destruct (poll_leaves_consistent u notifier to s tw tr now) as [Hw Hrt].
  destruct k; assumption.
Qed.

(** X6.  A poll whose snapshot equals the one of the poll before requests
    nothing, whatever the first poll detected and whether or not its
    notification was delivered: a delivery that failed is not tried again on
    an unchanged snapshot. *)
Theorem repeated_snapshot_requests_nothing (u : UsageInfo)
    (notifier1 notifier2 : Notifier) (to : string) (s : MonitorState)
    (tw1 tr1 tw2 tr2 : string) (now1 now2 : datetime) :
  let first := check_and_notify (Some u) notifier1 to s tw1 tr1 now1 in
  let second := check_and_notify (Some u) notifier2 to (poll_state first) tw2 tr2 now2 in
  poll_requested second = []
  /\ forall k : QuotaKind,
       reset_notified k (poll_state second) = reset_notified k (poll_state first).
Proof.
  cbv zeta.
  pose proof (same_snapshot_is_no_reset u notifier1 to s tw1 tr1 now1 Weekly) as Hw.
  pose proof (same_snapshot_is_no_reset u notifier1 to s tw1 tr1 now1 Rate) as Hr.
  cbn [is_reset usage_percent usage_reset_hours] in Hw, Hr.
  set (s1 := poll_state (check_and_notify (Some u) notifier1 to s tw1 tr1 now1)) in *.
  rewrite check_and_notify_unfold. cbv zeta. rewrite Hw, Hr. simpl.
  split; [reflexivity |].
  destruct (after_detection_flags u s1 tw2 tr2) as [Fw Fr].
  rewrite Hw in Fw. rewrite Hr in Fr.
  intros [|]; assumption.
Qed.

(** ** What the detector reports and what it does not *)

(** X7.  On a consistent stored observation, a sample whose percent is not
    below the stored one and whose reset hours are not above the stored ones
    is never reported as a reset: usage that only grows while the countdown
    only runs down raises no alarm. *)
Theorem growing_usage_is_no_reset
    (k : QuotaKind) (s : MonitorState) (p r : Q) (t : string) :
  observation_consistent k s ->
  last_percent k s <= p ->
  r <= last_reset_hours k s ->
  snd (update_and_check k s p r t) = false.
Proof.
  unfold observation_consistent. intros Hc Hp Hr.
  rewrite update_and_check_returns.
  destruct (is_reset k s p r) eqn:E; [exfalso | reflexivity].
  destruct k; simpl in *.
  - rewrite weekly_is_reset_orb in E.
    apply orb_true_iff in E as [E | E]; [apply orb_true_iff in E as [E | E] |].
    + apply andb_true_iff in E as [Hf Hlow]. rewrite Hc in Hf.
      reflect_tests. lra.
    + reflect_tests. lra.
    + reflect_tests. lra.
  - rewrite rate_is_reset_orb in E.
    apply orb_true_iff in E as [E | E]; [apply orb_true_iff in E as [E | E] |].
    + apply andb_true_iff in E as [Hf Hlow]. rewrite Hc in Hf.
      reflect_tests. lra.
    + reflect_tests. lra.
    + reflect_tests. lra.
Qed.

Lemma growing_usage_is_no_reset_witness :
  snd (update_and_check Rate
         (fst (update_and_check_rate MonitorState_default 75 (5 # 2) "t0"))
         96 (1 # 4) "t1") = false.
Proof.
  apply (growing_usage_is_no_reset Rate
           (fst (update_and_check_rate MonitorState_default 75 (5 # 2) "t0"))
           96 (1 # 4) "t1").
  - reflexivity.
  - simpl. lra.
  - simpl. lra.
Defined.

(** A notification that tells of kind [k] is among those requested exactly
    when the detector of [k] fired. *)
Lemma requested_covers_iff_fired (u : UsageInfo) (notifier : Notifier)
    (to : string) (s : MonitorState) (tw tr : string) (now : datetime) (k : QuotaKind) :
  existsb (notifies k)
    (poll_requested (check_and_notify (Some u) notifier to s tw tr now))
  = is_reset k s (usage_percent k u) (usage_reset_hours k u).
Proof.
  rewrite check_and_notify_unfold. cbv zeta. simpl poll_requested.
  destruct k; simpl;
    destruct (weekly_is_reset s (weekly_usage_percent u) (weekly_reset_hours u)),
             (rate_is_reset s (rate_limit_percent u) (rate_limit_reset_hours u));
    reflexivity.
Qed.

(** X8.  Two successful polls in a row, from any state and with any
    notifier: if between their snapshots a kind's percent went from above
    its full threshold to below 20, or its reset hours from below the
    imminent bound to above the post-reset floor, or its percent from above
    the drop floor down by more than the drop magnitude, then the second
    poll requests a notification that tells of that kind. *)
Theorem reset_between_polls_is_requested (k : QuotaKind) (u1 u2 : UsageInfo)
    (notifier1 notifier2 : Notifier) (to : string) (s : MonitorState)
    (tw1 tr1 tw2 tr2 : string) (now1 now2 : datetime) :
  (Thresholds.fullThreshold k < usage_percent k u1
     /\ usage_percent k u2 < Thresholds.lowThreshold k)
  \/ (usage_reset_hours k u1 < Thresholds.imminentResetHours k
     /\ Thresholds.postResetHoursFloor k < usage_reset_hours k u2)
  \/ (Thresholds.dropFloor k < usage_percent k u1
     /\ usage_percent k u2 < usage_percent k u1 - Thresholds.dropMagnitude k) ->
  let first := check_and_notify (Some u1) notifier1 to s tw1 tr1 now1 in
  let second := check_and_notify (Some u2) notifier2 to (poll_state first) tw2 tr2 now2 in
  exists n : Notification,
    In n (poll_requested second) /\ notifies k n = true.
Proof.
  intros H. cbv zeta.
  apply existsb_exists.
  rewrite requested_covers_iff_fired, is_reset_refines_spec.
  destruct (poll_stores_snapshot u1 notifier1 to s tw1 tr1 now1 k) as (Hp & Hr & Hf).
  unfold Spec.isReset, Spec.level_crossing, Spec.countdown_wrap, Spec.magnitude_drop.
  rewrite Hp, Hr, Hf.
  rewrite !orb_true_iff, !andb_true_iff.
  rewrite !PyNumFacts.ltb_lt, !PyNumFacts.gtb_gt.
  tauto.
Qed.

Lemma reset_between_polls_is_requested_witness :
  exists n : Notification,
    In n (poll_requested
            (check_and_notify (Some (mkUsageInfo 4 167 30 2)) always_succeeds
               "me@example.com"
               (poll_state
                  (check_and_notify (Some (mkUsageInfo 97 (1 # 10) 20 3))
                     (fun _ => false) "me@example.com" MonitorState_default
                     "t1" "t2" 0%Z))
               "t3" "t4" 600000000%Z))
    /\ notifies Weekly n = true.
Proof.
  apply (reset_between_polls_is_requested Weekly
           (mkUsageInfo 97 (1 # 10) 20 3) (mkUsageInfo 4 167 30 2)
           (fun _ => false) always_succeeds "me@example.com" MonitorState_default
           "t1" "t2" "t3" "t4" 0%Z 600000000%Z).
  left. split; reflexivity.
Defined.

(** ** Scheduling, failed polls, the console notifier *)

Lemma next_check_time_lower_bound (u : UsageInfo) (now t : datetime) :
  calculate_next_check_time u now = Return t ->
  0 <= weekly_reset_hours u ->
  0 <= rate_limit_reset_hours u ->
  (now + timedelta_minutes 5 <= t)%Z.
Proof.
  intros E Hw Hr.
  pose proof (calculate_next_check_time_inv u now) as Hinv.
  rewrite E in Hinv. subst t.
  pose proof (hours_microseconds_nonneg _ (Q.min_glb _ _ _ Hw Hr)).
  lia.
Qed.





(** X11.  When the SMTP user or password is not configured, the notifier is
    the console one and every request succeeds: after a poll a kind's flag
    is true if it was true before or its detector fired. *)
Theorem console_notifier_marks_every_reset (config : Config) (smtp : Notifier)
    (u : UsageInfo) (s : MonitorState) (tw tr : string) (now : datetime)
    (k : QuotaKind) :
  SMTP_USER config = "" \/ SMTP_PASSWORD config = "" ->
  reset_notified k
    (poll_state (check_and_notify (Some u) (create_notifier config smtp)
                   (NOTIFY_EMAIL config) s tw tr now))
  = reset_notified k s || is_reset k s (usage_percent k u) (usage_reset_hours k u).
Proof.
  intros Hcfg.
  assert (Hn : create_notifier config smtp = ConsoleNotifier).
  { unfold create_notifier. destruct Hcfg as [-> | ->]; simpl;
      [reflexivity | rewrite orb_true_r; reflexivity]. }
  rewrite Hn. rewrite check_and_notify_unfold. cbv zeta. simpl poll_state.
  destruct (after_detection_flags u s tw tr) as [Fw Fr].
  unfold ConsoleNotifier.
  destruct k; simpl;
    destruct (weekly_is_reset s (weekly_usage_percent u) (weekly_reset_hours u)),
             (rate_is_reset s (rate_limit_percent u) (rate_limit_reset_hours u));
    simpl; rewrite ?Fw, ?Fr, ?orb_true_r, ?orb_false_r; reflexivity.
Qed.

Lemma console_notifier_marks_every_reset_witness :
  reset_notified Weekly
    (poll_state
       (check_and_notify (Some (mkUsageInfo 3 167 50 2))
          (create_notifier
             (mkConfig "" "smtp.gmail.com" 587 "" "" "me@example.com" 10
                "state.json" "monitor.log")
             (fun _ => false))
          (NOTIFY_EMAIL
             (mkConfig "" "smtp.gmail.com" 587 "" "" "me@example.com" 10
                "state.json" "monitor.log"))
          MonitorState_default "t1" "t2" 0%Z))
  = reset_notified Weekly MonitorState_default
    || is_reset Weekly MonitorState_default
         (usage_percent Weekly (mkUsageInfo 3 167 50 2))
         (usage_reset_hours Weekly (mkUsageInfo 3 167 50 2)).
Proof.
  apply (console_notifier_marks_every_reset
           (mkConfig "" "smtp.gmail.com" 587 "" "" "me@example.com" 10
              "state.json" "monitor.log")
           (fun _ => false) (mkUsageInfo 3 167 50 2) MonitorState_default
           "t1" "t2" 0%Z Weekly).
  left. reflexivity.
Defined.

(** ** Clients *)

(** X12.  [StateFileClient] on the file the monitor itself saved reads back
    the stored observation as the snapshot; a poll of a consistent state on
    that snapshot requests nothing and keeps both flags.  A monitor that
    polls its own state file reports a reset only after something else
    rewrote the file. *)
Theorem state_file_client_reads_stored_observation (s : MonitorState) :
  state_consistent s ->
  exists (raw : RawUsageInfo) (u : UsageInfo),
    StateFileClient.get_usage (saved_file s) = Return (Some raw)
    /\ UsageInfo_of_raw raw = Some u
    /\ u = mkUsageInfo (weekly_last_percent s) (weekly_last_reset_hours s)
             (rate_last_percent s) (rate_last_last_reset_hours s)
    /\ forall (notifier : Notifier) (to tw tr : string) (now : datetime),
         let r := check_and_notify (Some u) notifier to s tw tr now in
         poll_requested r = []
         /\ forall k : QuotaKind,
              reset_notified k (poll_state r) = reset_notified k s.
Proof.
  intros [Hw Hr].
  eexists. eexists.
  split; [reflexivity |].
  split; [reflexivity |].
  split; [reflexivity |].
  intros notifier to tw tr now. cbv zeta.
  pose proof (stored_observation_is_no_reset Weekly s Hw) as Qw.
  pose proof (stored_observation_is_no_reset Rate s Hr) as Qr.
  cbn [is_reset last_percent last_reset_hours] in Qw, Qr.
  rewrite check_and_notify_unfold. cbv zeta.
  cbn [weekly_usage_percent weekly_reset_hours rate_limit_percent rate_limit_reset_hours].
  rewrite Qw, Qr. simpl.
  split; [reflexivity |].
  match goal with
  | |- context [after_detection ?u s tw tr] =>
      destruct (after_detection_flags u s tw tr) as [Fw Fr]
  end.
  cbn [weekly_usage_percent weekly_reset_hours rate_limit_percent rate_limit_reset_hours]
    in Fw, Fr.
  rewrite Qw in Fw. rewrite Qr in Fr.
  intros [|]; assumption.
Qed.

Lemma state_file_client_reads_stored_observation_witness :
  exists (raw : RawUsageInfo) (u : UsageInfo),
    StateFileClient.get_usage (saved_file MonitorState_default) = Return (Some raw)
    /\ UsageInfo_of_raw raw = Some u
    /\ u = mkUsageInfo (weekly_last_percent MonitorState_default)
             (weekly_last_reset_hours MonitorState_default)
             (rate_last_percent MonitorState_default)
             (rate_last_last_reset_hours MonitorState_default)
    /\ forall (notifier : Notifier) (to tw tr : string) (now : datetime),
         let r := check_and_notify (Some u) notifier to MonitorState_default tw tr now in
         poll_requested r = []
         /\ forall k : QuotaKind,
              reset_notified k (poll_state r) = reset_notified k MonitorState_default.
Proof.
  apply (state_file_client_reads_stored_observation MonitorState_default).
  split; reflexivity.
Defined.

(** X13.  [StateFileClient.get_usage] never raises.  It returns nothing when
    there is no file, when the file cannot be read or parsed, and when the
    JSON value is not an object; for an object it returns a snapshot in
    which a key that is absent reads as 0, so that the empty object gives
    the all-zero snapshot. *)
Theorem state_file_client_never_raises (f : state_file) :
  exists result : option RawUsageInfo,
    StateFileClient.get_usage f = Return result
    /\ (result = None <-> forall d : gmap string json, f <> Json (JObj d))
    /\ forall d : gmap string json,
         f = Json (JObj d) ->
         exists raw : RawUsageInfo,
           result = Some raw
           /\ (d !! "weekly_last_percent" = None ->
               raw_weekly_usage_percent raw = JInt 0)
           /\ (d !! "weekly_last_reset_hours" = None ->
               raw_weekly_reset_hours raw = JInt 0)
           /\ (d !! "rate_last_percent" = None ->
               raw_rate_limit_percent raw = JInt 0)
           /\ (d !! "rate_last_last_reset_hours" = None ->
               raw_rate_limit_reset_hours raw = JInt 0)
           /\ (d = ∅ -> UsageInfo_of_raw raw = Some (mkUsageInfo 0 0 0 0)).
Proof.
  destruct f as [| | | | data];
    try (exists None; split; [reflexivity |]; split;
         [split; [intros _ d; discriminate | reflexivity] | intros d; discriminate]).
  destruct data;
    try (exists None; split; [reflexivity |]; split;
         [split; [intros _ d; discriminate | reflexivity] | intros d; discriminate]).
  eexists. split; [reflexivity |]. split.
  - split; [discriminate |]. intros H. exfalso. exact (H m eq_refl).
  - intros d [= <-]. eexists. split; [reflexivity |].
    unfold dict_get. simpl.
    repeat split; try (intros ->; reflexivity).
Qed.

Lemma py_leb_le (x y : Q) : py_leb x y = true <-> x <= y.
Proof. apply Qle_bool_iff. Qed.

Lemma py_leb_gt (x y : Q) : py_leb x y = false <-> y < x.
Proof.
  unfold py_leb. split; intros H.
  - apply Qnot_le_lt. intros Hle. apply Qle_bool_iff in Hle. congruence.
  - destruct (Qle_bool x y) eqn:E; [| reflexivity].
    apply Qle_bool_iff in E. lra.
Qed.

Lemma py_max0_spec (x : Q) :
  (0 < x /\ py_max0 x = x) \/ (x <= 0 /\ py_max0 x = 0).
Proof.
  unfold py_max0. destruct (x >? 0) eqn:E; reflect_tests; [left | right]; auto.
Qed.

(** What one kind's attributes are after [simulate_countdown]: counted down
    when time is left, otherwise unused again with the full period. *)
Lemma simulate_countdown_kind (k : QuotaKind) (minutes : Q)
    (c : MockKimiCodeClient.t) :
  let c' := MockKimiCodeClient.simulate_countdown minutes c in
  let left := MockKimiCodeClient.reset_hours k c - minutes / 60 in
  (0 < left
   /\ MockKimiCodeClient.reset_hours k c' = left
   /\ usage_percent k (MockKimiCodeClient.get_usage c') =
        usage_percent k (MockKimiCodeClient.get_usage c))
  \/ (left <= 0
      /\ MockKimiCodeClient.reset_hours k c' = match k with Weekly => 7 * 24 | Rate => 5 end
      /\ usage_percent k (MockKimiCodeClient.get_usage c') = 100 - 100).
Proof.
  cbv zeta. unfold MockKimiCodeClient.simulate_countdown.
  cbn [MockKimiCodeClient.weekly_left MockKimiCodeClient.weekly_reset_hours
       MockKimiCodeClient.hourly_left MockKimiCodeClient.hourly_reset_hours].
  destruct (py_max0_spec (MockKimiCodeClient.weekly_reset_hours c - minutes / 60))
    as [[Hw Ew] | [Hw Ew]];
    destruct (py_max0_spec (MockKimiCodeClient.hourly_reset_hours c - minutes / 60))
      as [[Hh Eh] | [Hh Eh]];
    rewrite Ew, Eh;
    repeat match goal with
           | |- context [py_leb ?a 0] =>
               let E := fresh "E" in
               destruct (py_leb a 0) eqn:E;
               [apply py_leb_le in E | apply py_leb_gt in E];
               cbn [MockKimiCodeClient.weekly_left MockKimiCodeClient.weekly_reset_hours
                    MockKimiCodeClient.hourly_left MockKimiCodeClient.hourly_reset_hours]
                 in *
           end;
    try (exfalso; lra);
    destruct k; simpl; first [left; repeat split; assumption
                             | right; repeat split; assumption
                             | exfalso; lra].
Qed.

(** X14.  After [simulate_countdown], whatever the minutes and the client,
    the hours to either reset are positive: a countdown that runs out wraps
    to the full period (168 hours, 5 hours). *)
Theorem simulate_countdown_hours_positive (k : QuotaKind) (minutes : Q)
    (c : MockKimiCodeClient.t) :
  0 < MockKimiCodeClient.reset_hours k
        (MockKimiCodeClient.simulate_countdown minutes c).
Proof.
  destruct (simulate_countdown_kind k minutes c) as [(H & E & _) | (H & E & _)];
    rewrite E; [exact H | destruct k; reflexivity].
Qed.

(** X15.  A simulated reset is seen by the monitor: when the mock client
    is within the imminent bound of a kind's reset (1 hour, 0.5 hours) at
    one poll and the countdown then runs out, the next poll requests a
    notification that tells of that kind. *)
Theorem simulated_reset_is_requested (k : QuotaKind) (minutes : Q)
    (c : MockKimiCodeClient.t)
    (notifier1 notifier2 : Notifier) (to : string) (s : MonitorState)
    (tw1 tr1 tw2 tr2 : string) (now1 now2 : datetime) :
  MockKimiCodeClient.reset_hours k c < Thresholds.imminentResetHours k ->
  MockKimiCodeClient.reset_hours k c <= minutes / 60 ->
  let first :=
    check_and_notify (Some (MockKimiCodeClient.get_usage c))
      notifier1 to s tw1 tr1 now1 in
  let c' := MockKimiCodeClient.simulate_countdown minutes c in
  let second :=
    check_and_notify (Some (MockKimiCodeClient.get_usage c'))
      notifier2 to (poll_state first) tw2 tr2 now2 in
  exists n : Notification,
    In n (poll_requested second) /\ notifies k n = true.
Proof.
  intros Himm Hout. cbv zeta.
  apply existsb_exists.
  rewrite requested_covers_iff_fired, is_reset_refines_spec.
  destruct (poll_stores_snapshot (MockKimiCodeClient.get_usage c)
              notifier1 to s tw1 tr1 now1 k) as (_ & Hr & _).
  assert (Hwrap : Spec.countdown_wrap k
            (poll_state (check_and_notify (Some (MockKimiCodeClient.get_usage c))
                           notifier1 to s tw1 tr1 now1))
            (usage_reset_hours k
               (MockKimiCodeClient.get_usage
                  (MockKimiCodeClient.simulate_countdown minutes c))) = true).
  { unfold Spec.countdown_wrap. rewrite Hr.
    apply andb_true_iff. split.
    - apply PyNumFacts.ltb_lt. destruct k; exact Himm.
    - apply PyNumFacts.gtb_gt.
      destruct (simulate_countdown_kind k minutes c) as [(H & _) | (_ & E & _)].
      + exfalso. lra.
      + destruct k; simpl in E |- *; rewrite E; reflexivity. }
  unfold Spec.isReset. rewrite Hwrap. rewrite orb_true_r. reflexivity.
Qed.

Lemma simulated_reset_is_requested_witness :
  exists n : Notification,
    In n (poll_requested
            (check_and_notify
               (Some (MockKimiCodeClient.get_usage
                        (MockKimiCodeClient.simulate_countdown 30
                           (MockKimiCodeClient.mk 40 100 70 (1 # 4)))))
               always_succeeds "me@example.com"
               (poll_state
                  (check_and_notify
                     (Some (MockKimiCodeClient.get_usage
                              (MockKimiCodeClient.mk 40 100 70 (1 # 4))))
                     always_succeeds "me@example.com" MonitorState_default
                     "t1" "t2" 0%Z))
               "t3" "t4" 1800000000%Z))
    /\ notifies Rate n = true.
Proof.
  apply (simulated_reset_is_requested Rate 30
           (MockKimiCodeClient.mk 40 100 70 (1 # 4))
           always_succeeds always_succeeds "me@example.com" MonitorState_default
           "t1" "t2" "t3" "t4" 0%Z 1800000000%Z).
  - reflexivity.
  - simpl. unfold Qle. simpl. lia.
Defined.

(** ** The simulation *)

Lemma simulate_checks_cons (notifier : Notifier) (to : string)
    (clock : nat -> string * string * datetime) (i : nat) (rest : list nat)
    (client : MockKimiCodeClient.t) (s : MonitorState) :
  let r := check_and_notify (Some (MockKimiCodeClient.get_usage client))
             notifier to s (fst (fst (clock i))) (snd (fst (clock i)))
             (snd (clock i)) in
  let client1 := MockKimiCodeClient.simulate_countdown 2 client in
  let client2 :=
    if Nat.eqb i 4
    then MockKimiCodeClient.mk 100 (MockKimiCodeClient.weekly_reset_hours client1)
           100 (MockKimiCodeClient.hourly_reset_hours client1)
    else client1 in
  snd (simulate_checks notifier to clock (i :: rest) client s) =
    poll_requested r :: snd (simulate_checks notifier to clock rest client2 (poll_state r)).
Proof.
  cbv zeta. cbn [simulate_checks].
  destruct (simulate_checks notifier to clock rest _ _) as [s' reqs].
  reflexivity.
Qed.

(** ** Requests do not depend on deliveries *)

Lemma is_reset_same_observation (k : QuotaKind) (s s' : MonitorState) (p r : Q) :
  same_observation s s' ->
  is_reset k s p r = is_reset k s' p r.
Proof.
  intros H. destruct (H k) as (Hf & Hp & Hr).
  destruct k; simpl in *;
    [unfold weekly_is_reset | unfold rate_is_reset]; rewrite Hf, Hp, Hr; reflexivity.
Qed.

Lemma poll_same_observation (usage : option UsageInfo) (n1 n2 : Notifier) (to : string)
    (s s' : MonitorState) (tw tr tw' tr' : string) (now now' : datetime) :
  same_observation s s' ->
  let r := check_and_notify usage n1 to s tw tr now in
  let r' := check_and_notify usage n2 to s' tw' tr' now' in
  poll_requested r = poll_requested r'
  /\ same_observation (poll_state r) (poll_state r').
Proof.
  intros H. cbv zeta. destruct usage as [u |]; [| split; [reflexivity | exact H]].
  split.
  - rewrite !check_and_notify_unfold. cbv zeta. simpl poll_requested.
    pose proof (is_reset_same_observation Weekly s s'
                  (weekly_usage_percent u) (weekly_reset_hours u) H) as Ew.
    pose proof (is_reset_same_observation Rate s s'
                  (rate_limit_percent u) (rate_limit_reset_hours u) H) as Er.
    simpl in Ew, Er. rewrite Ew, Er. reflexivity.
  - intros k.
    destruct (poll_stores_snapshot u n1 to s tw tr now k) as (P1 & R1 & F1).
    destruct (poll_stores_snapshot u n2 to s' tw' tr' now' k) as (P2 & R2 & F2).
    rewrite P1, R1, F1, P2, R2, F2. repeat split.
Qed.

(** X16.  What a run of polls requests depends on the snapshots and on the
    observations stored at the start, and on nothing else: two runs over
    the same snapshots request the same notifications poll by poll, whatever
    their notifiers answer, whatever the flags were, whatever the clock
    reads. *)
Theorem requests_do_not_depend_on_deliveries (n1 n2 : Notifier) (to : string)
    (inputs inputs' : list PollInput) (s s' : MonitorState) :
  map in_usage inputs = map in_usage inputs' ->
  same_observation s s' ->
  snd (run_polls n1 to s inputs) = snd (run_polls n2 to s' inputs').
Proof.
  revert inputs' s s'.
  induction inputs as [| i rest IH]; intros [| i' rest'] s s' Hmap Hobs;
    simpl in Hmap; try discriminate; [reflexivity |].
  injection Hmap as Hu Hrest. simpl.
  destruct (poll_same_observation (in_usage i) n1 n2 to s s'
              (in_iso_weekly i) (in_iso_rate i) (in_iso_weekly i') (in_iso_rate i')
              (in_now i) (in_now i') Hobs) as [Hreq Hnext].
  rewrite <- Hu.
  specialize (IH rest' _ _ Hrest Hnext).
  destruct (run_polls n1 to _ rest) as [s1 reqs1].
  destruct (run_polls n2 to _ rest') as [s2 reqs2].
  simpl in *. rewrite Hreq, IH. reflexivity.
Qed.

Lemma requests_do_not_depend_on_deliveries_witness :
  snd (run_polls always_succeeds "me@example.com" MonitorState_default
         [mkPollInput (Some (mkUsageInfo 95 (1 # 2) 10 4)) "t1" "t2" 0%Z;
          mkPollInput (Some (mkUsageInfo 3 167 12 3)) "t3" "t4" 600000000%Z])
  = snd (run_polls (fun _ => false) "me@example.com"
           (mark_notified true true MonitorState_default)
           [mkPollInput (Some (mkUsageInfo 95 (1 # 2) 10 4)) "u1" "u2" 7%Z;
            mkPollInput (Some (mkUsageInfo 3 167 12 3)) "u3" "u4" 600000007%Z]).
Proof.
  apply (requests_do_not_depend_on_deliveries always_succeeds (fun _ => false)
           "me@example.com").
  - reflexivity.
  - intros [|]; repeat split.
Defined.

(** ** The simulation *)

Lemma simulate_checks_same_observation (n1 n2 : Notifier) (to : string)
    (clock clock' : nat -> string * string * datetime) (indices : list nat) :
  forall (client : MockKimiCodeClient.t) (s s' : MonitorState),
    same_observation s s' ->
    snd (simulate_checks n1 to clock indices client s) =
    snd (simulate_checks n2 to clock' indices client s').
Proof.
  induction indices as [| i rest IH]; intros client s s' Hobs; [reflexivity |].
  rewrite !simulate_checks_cons. cbv zeta.
  destruct (poll_same_observation (Some (MockKimiCodeClient.get_usage client))
              n1 n2 to s s'
              (fst (fst (clock i))) (snd (fst (clock i)))
              (fst (fst (clock' i))) (snd (fst (clock' i)))
              (snd (clock i)) (snd (clock' i)) Hobs) as [Hreq Hnext].
  rewrite Hreq. f_equal. apply IH. exact Hnext.
Qed.

(** A successful poll stores its snapshot whatever the state was. *)
Lemma successful_polls_same_observation (u : UsageInfo) (n1 n2 : Notifier)
    (to : string) (s s' : MonitorState) (tw tr tw' tr' : string) (now now' : datetime) :
  same_observation
    (poll_state (check_and_notify (Some u) n1 to s tw tr now))
    (poll_state (check_and_notify (Some u) n2 to s' tw' tr' now')).
Proof.
  intros k.
  destruct (poll_stores_snapshot u n1 to s tw tr now k) as (P1 & R1 & F1).
  destruct (poll_stores_snapshot u n2 to s' tw' tr' now' k) as (P2 & R2 & F2).
  rewrite P1, R1, F1, P2, R2, F2. repeat split.
Qed.

(** X17.  [simulate_test], from any state and with any notifier: after its
    first check, the only request is the combined notification at the third
    check, once the countdown has run out after the second; setting the
    limits to unused after the fifth check adds no request. *)
Theorem simulate_test_requests (notifier : Notifier) (to : string)
    (clock : nat -> string * string * datetime) (s : MonitorState) :
  tl (snd (simulate_test notifier to clock s)) =
    [ []; [BothReset to]; []; []; []; []; [] ].
Proof.
  unfold simulate_test. cbn [seq].
  rewrite simulate_checks_cons. cbv zeta. cbn [tl].
  rewrite (simulate_checks_same_observation notifier always_succeeds to
             clock (fun _ => (EmptyString, EmptyString, 0%Z)) _ _ _
             (poll_state
                (check_and_notify
                   (Some (MockKimiCodeClient.get_usage
                            (MockKimiCodeClient.mk 5 (1 # 20) 5 (1 # 20))))
                   always_succeeds to MonitorState_default
                   EmptyString EmptyString 0%Z))).
  - vm_compute. reflexivity.
  - apply successful_polls_same_observation.
Qed.

(** ** The manual update tool and the monitor *)

(** [update_usage] on a dictionary the monitor saved: what it detects and
    the state it hands to [save_state]. *)
Lemma update_usage_on_saved_state (s : MonitorState)
    (wl wd wh wm hl hh hm : Q) (now : string) :
  let wu := 100 - wl in
  let whours := wd * 24 + wh + wm / 60 in
  let hu := 100 - hl in
  let hhours := hh + hm / 60 in
  let wdet := (weekly_last_percent s >? 80) && (wu <? 20)
              || (weekly_last_reset_hours s <? 1) && (whours >? 160) in
  let rdet := (rate_last_percent s >? 80) && (hu <? 20)
              || (rate_last_last_reset_hours s <? 1 # 2) && (hhours >? 2) in
  UpdateUsage.update_usage (asdict s) wl wd wh wm hl hh hm now =
    Return
      (asdict (mkMonitorState (wu >? 80) wu whours (hu >? 70) hu hhours (Some now)
                 (if wdet then false else weekly_reset_notified s)
                 (if rdet then false else rate_reset_notified s)),
       wdet || rdet).
Proof.
  cbv zeta. unfold UpdateUsage.update_usage. cbv zeta.
  change (dict_get (asdict s) "weekly_last_percent" (JInt 0))
    with (JFloat (weekly_last_percent s)).
  change (dict_get (asdict s) "weekly_last_reset_hours" (JInt 168))
    with (JFloat (weekly_last_reset_hours s)).
  change (dict_get (asdict s) "rate_last_percent" (JInt 0))
    with (JFloat (rate_last_percent s)).
  change (dict_get (asdict s) "rate_last_last_reset_hours" (JInt 3))
    with (JFloat (rate_last_last_reset_hours s)).
  unfold UpdateUsage.json_gt, UpdateUsage.json_lt, UpdateUsage.as_number, bind.
  destruct ((weekly_last_percent s >? 80) && (100 - wl <? 20));
    destruct ((weekly_last_reset_hours s <? 1) && (wd * 24 + wh + wm / 60 >? 160));
    destruct ((rate_last_percent s >? 80) && (100 - hl <? 20));
    destruct ((rate_last_last_reset_hours s <? 1 # 2) && (hh + hm / 60 >? 2));
    destruct s; reflexivity.
Qed.

(** X18.  [update_usage] keeps the file in the monitor's format: run on a
    state the monitor saved, it writes a state that the monitor loads back
    field by field, whose observations are the report typed in (percent used
    is 100 minus percent left, hours are days times 24 plus hours plus
    minutes over 60) and are consistent. *)
Theorem update_usage_writes_loadable_state (s : MonitorState)
    (wl wd wh wm hl hh hm : Q) (now : string) :
  exists (s' : MonitorState) (detected : bool),
    UpdateUsage.update_usage (asdict s) wl wd wh wm hl hh hm now =
      Return (asdict s', detected)
    /\ bind (_load_state (saved_file s')) (fun d => Return (MonitorState_of_dict d)) =
         Return (Some s')
    /\ state_consistent s'
    /\ weekly_last_percent s' = 100 - wl
    /\ weekly_last_reset_hours s' = wd * 24 + wh + wm / 60
    /\ rate_last_percent s' = 100 - hl
    /\ rate_last_last_reset_hours s' = hh + hm / 60.
Proof.
  pose proof (update_usage_on_saved_state s wl wd wh wm hl hh hm now) as H.
  cbv zeta in H.
  eexists. eexists. split; [exact H |].
  split.
  - rewrite load_saved_state. simpl. rewrite MonitorState_of_dict_asdict. reflexivity.
  - repeat split.
Qed.

(** X19.  On a consistent state, whatever [update_usage] reports as a reset
    the monitor's detectors report too, on the same stored observation and
    the same sample. *)
Theorem update_usage_detection_is_monitor_detection (s : MonitorState)
    (wl wd wh wm hl hh hm : Q) (now : string) :
  state_consistent s ->
  exists (d : gmap string json) (detected : bool),
    UpdateUsage.update_usage (asdict s) wl wd wh wm hl hh hm now = Return (d, detected)
    /\ (detected = true ->
        weekly_is_reset s (100 - wl) (wd * 24 + wh + wm / 60)
        || rate_is_reset s (100 - hl) (hh + hm / 60) = true).
Proof.
  intros [Hw Hr]. unfold observation_consistent in Hw, Hr. simpl in Hw, Hr.
  pose proof (update_usage_on_saved_state s wl wd wh wm hl hh hm now) as H.
  cbv zeta in H.
  eexists. eexists. split; [exact H |].
  rewrite weekly_is_reset_orb, rate_is_reset_orb, Hw, Hr.
  intros Hd.
  apply orb_true_iff in Hd as [Hd | Hd]; apply orb_true_iff in Hd as [Hd | Hd];
    apply andb_true_iff in Hd as [H1 H2]; rewrite ?H2.
  - rewrite H1. reflexivity.
  - rewrite H1. simpl. rewrite !orb_true_r. reflexivity.
  - assert (E : (rate_last_percent s >? 70) = true).
    { reflect_tests. apply PyNumFacts.gtb_gt. lra. }
    rewrite E. simpl. rewrite !orb_true_r. reflexivity.
  - rewrite H1. simpl. rewrite !orb_true_r. reflexivity.
Qed.

Lemma update_usage_detection_is_monitor_detection_witness :
  exists (d : gmap string json) (detected : bool),
    UpdateUsage.update_usage
      (asdict (fst (update_and_check_rate MonitorState_default 85 (1 # 4) "t0")))
      84 6 22 54 95 4 30 "t1" = Return (d, detected)
    /\ (detected = true ->
        weekly_is_reset (fst (update_and_check_rate MonitorState_default 85 (1 # 4) "t0"))
          (100 - 84) (6 * 24 + 22 + 54 / 60)
        || rate_is_reset (fst (update_and_check_rate MonitorState_default 85 (1 # 4) "t0"))
             (100 - 95) (4 + 30 / 60) = true).
Proof.
  apply (update_usage_detection_is_monitor_detection
           (fst (update_and_check_rate MonitorState_default 85 (1 # 4) "t0"))
           84 6 22 54 95 4 30 "t1").
  split; reflexivity.
Defined.

(** X20.  On a dictionary without the four observation keys [update_usage]
    never reports a reset: an absent percent reads as 0 and absent reset hours
    as 168 and 3, so neither rule can fire. *)
Theorem update_usage_without_observation_detects_nothing
    (state : gmap string json) (wl wd wh wm hl hh hm : Q) (now : string) :
  state !! "weekly_last_percent" = None ->
  state !! "weekly_last_reset_hours" = None ->
  state !! "rate_last_percent" = None ->
  state !! "rate_last_last_reset_hours" = None ->
  exists d : gmap string json,
    UpdateUsage.update_usage state wl wd wh wm hl hh hm now = Return (d, false).
Proof.
  intros H1 H2 H3 H4.
  unfold UpdateUsage.update_usage, dict_get. cbv zeta.
  rewrite H1, H2, H3, H4.
  unfold UpdateUsage.json_gt, UpdateUsage.json_lt, UpdateUsage.as_number, bind.
  change (inject_Z 0 >? 80) with false.
  change (inject_Z 168 <? 1) with false.
  change (inject_Z 3 <? 1 # 2) with false.
  simpl. eexists. reflexivity.
Qed.

Lemma update_usage_without_observation_detects_nothing_witness :
  exists d : gmap string json,
    UpdateUsage.update_usage (<["weekly_reset_notified" := JBool true]> ∅)
      100 6 23 59 100 4 59 "t" = Return (d, false).
Proof.
  apply (update_usage_without_observation_detects_nothing
           (<["weekly_reset_notified" := JBool true]> ∅)
           100 6 23 59 100 4 59 "t"); reflexivity.
Defined.

(** ** The main loop *)


